(** * CST816S touch-controller driver: a shallow embedding of src/CST816S.cpp

    The driver object becomes a record, every member function a function on
    that record, and the board (the two-wire bus, the pins, the delays, the
    interrupt controller) a record that keeps the chronological trace of the
    calls the driver makes together with the answers the chip will give. *)

From Stdlib Require Import ZArith List String Bool Lia.
Import ListNotations.
Open Scope Z_scope.

(** ** Machine integers

    [uint8_t], [uint16_t] and [uint32_t] values are integers reduced modulo
    their width.  [int] is the 32-bit two's-complement integer of the ESP32
    targets the driver is written for (the source passes three arguments to
    [TwoWire::begin] and includes FunctionalInterrupt.h); arithmetic on it is
    written with its wrap-around. *)

Definition to_u8 (z : Z) : Z := z mod 256.
Definition to_u16 (z : Z) : Z := z mod 65536.
Definition to_u32 (z : Z) : Z := z mod 4294967296.
Definition to_int (z : Z) : Z := (z + 2147483648) mod 4294967296 - 2147483648.

Definition is_u8 (z : Z) : Prop := 0 <= z < 256.
Definition is_int (z : Z) : Prop := -2147483648 <= z < 2147483648.

(** [a % b] of C++ truncates towards zero: it is [Z.rem], not [Z.modulo]. *)
Definition c_rem (a b : Z) : Z := Z.rem a b.

(** ** The constants of CST816S.h

    The header is not among the sources: the device address and the values of
    the [GESTURE] enumerators are parameters of the development. *)

Class CST816S_h : Set := {
  CST816S_ADDRESS : Z;
  NONE : Z;
  SWIPE_UP : Z;
  SWIPE_DOWN : Z;
  SWIPE_LEFT : Z;
  SWIPE_RIGHT : Z;
  SINGLE_CLICK : Z;
  DOUBLE_CLICK : Z;
  LONG_PRESS : Z
}.

(** ** The board *)

Inductive PinDirection : Set := INPUT | OUTPUT.
Inductive PinLevel : Set := LOW | HIGH.

(** One constructor per external call the driver makes. *)
Inductive HwCall : Set :=
| CallWireBegin (sda scl frequency : Z)
| CallBeginTransmission (addr : Z)
| CallWrite (b : Z)
| CallEndTransmission (sendStop : bool)
| CallRequestFrom (addr len : Z) (sendStop : bool)
| CallRead
| CallPinMode (pin : Z) (mode : PinDirection)
| CallDigitalWrite (pin : Z) (level : PinLevel)
| CallDelay (ms : Z)
| CallAttachInterrupt (pin : Z) (mode : Z).

(** [trace]: the calls made so far, oldest first.
    [acks]: the values the coming calls of [endTransmission] return (0 is
    success, anything else a failed transmission).
    [replies]: the bytes the chip sends in answer to the coming calls of
    [requestFrom].
    [rx]: the receive buffer of the bus. *)
Record Board : Set := mkBoard {
  trace : list HwCall;
  acks : list Z;
  replies : list (list Z);
  rx : list Z
}.

(** Calls on the board thread it as state. *)
Definition HW (A : Type) : Type := Board -> A * Board.

Definition ret {A : Type} (a : A) : HW A := fun b => (a, b).
Definition bind {A B : Type} (m : HW A) (f : A -> HW B) : HW B :=
  fun b => let (a, b') := m b in f a b'.

Notation "x <- m ;; k" := (bind m (fun x => k))
  (at level 61, m at next level, right associativity).
Notation "m ;;; k" := (bind m (fun _ => k))
  (at level 61, right associativity).

Definition emit (c : HwCall) : HW unit :=
  fun b => (tt, mkBoard (trace b ++ [c]) (acks b) (replies b) (rx b)).

Definition beginTransmission (addr : Z) : HW unit :=
  emit (CallBeginTransmission addr).

Definition write (v : Z) : HW unit := emit (CallWrite v).

(** With no answer left in the script nobody acknowledges the address
    (error 2 of the Arduino core). *)
Definition endTransmission (sendStop : bool) : HW Z :=
  fun b =>
    let t := trace b ++ [CallEndTransmission sendStop] in
    match acks b with
    | [] => (2, mkBoard t [] (replies b) (rx b))
    | a :: rest => (a, mkBoard t rest (replies b) (rx b))
    end.

(** The bus delivers at most [len] bytes; with no reply left in the script
    it delivers none. *)
Definition requestFrom (addr len : Z) (sendStop : bool) : HW Z :=
  fun b =>
    let t := trace b ++ [CallRequestFrom addr len sendStop] in
    match replies b with
    | [] => (0, mkBoard t (acks b) [] [])
    | r :: rest =>
        let got := firstn (Z.to_nat len) r in
        (Z.of_nat (List.length got), mkBoard t (acks b) rest got)
    end.

(** [TwoWire::read] returns the next received byte, or -1 when the receive
    buffer is empty. *)
Definition read : HW Z :=
  fun b =>
    let t := trace b ++ [CallRead] in
    match rx b with
    | [] => (-1, mkBoard t (acks b) (replies b) [])
    | v :: rest => (v, mkBoard t (acks b) (replies b) rest)
    end.

Definition pinMode (pin : Z) (m : PinDirection) : HW unit :=
  emit (CallPinMode pin m).
Definition digitalWrite (pin : Z) (v : PinLevel) : HW unit :=
  emit (CallDigitalWrite pin v).
Definition delay (ms : Z) : HW unit := emit (CallDelay ms).
Definition attachInterrupt (pin mode : Z) : HW unit :=
  emit (CallAttachInterrupt pin mode).
Definition wire_begin (sda scl frequency : Z) : HW unit :=
  emit (CallWireBegin sda scl frequency).

(** What the next [endTransmission] returns and what the chip sends to the
    next [requestFrom]. *)
Definition next_ack (b : Board) : Z := hd 2 (acks b).
Definition next_reply (b : Board) : list Z := hd [] (replies b).

(** ** Arrays

    [store i v a] is [a[i] = v].  An index past the end leaves the list as it
    is (in C++ it would write outside the array; the driver never does). *)
Fixpoint store (i : nat) (v : Z) (a : list Z) {struct a} : list Z :=
  match a, i with
  | [], _ => []
  | _ :: t, O => v :: t
  | h :: t, S j => h :: store j v t
  end.

(** [a[i]]; an index past the end reads 0. *)
Definition at_index (a : list Z) (i : nat) : Z := nth i a 0.

(** ** The bus transport *)

(** The loop [for (i = 0; i < length; i++) *reg_data++ = _wire.read();]
    with [n] iterations left and [i] the current offset. *)
Fixpoint read_bytes (n i : nat) (reg_data : list Z) : HW (list Z) :=
  match n with
  | O => ret reg_data
  | S m =>
      v <- read ;;
      read_bytes m (S i) (store i (to_u8 v) reg_data)
  end.

(** [i2c_read] returns its status together with the destination array. *)
Definition i2c_read (addr reg_addr : Z) (reg_data : list Z) (length : Z)
  : HW (Z * list Z) :=
  let addr := to_u16 addr in
  let reg_addr := to_u8 reg_addr in
  let length := to_u32 length in
  beginTransmission addr ;;;
  write reg_addr ;;;
  e <- endTransmission true ;;
  if negb (e =? 0) then ret (to_u8 (-1), reg_data)
  else
    requestFrom addr length true ;;;
    filled <- read_bytes (Z.to_nat length) 0 reg_data ;;
    ret (0, filled).

(** The loop [for (i = 0; i < length; i++) _wire.write( *reg_data++ );]. *)
Fixpoint write_bytes (n i : nat) (reg_data : list Z) : HW unit :=
  match n with
  | O => ret tt
  | S m => write (at_index reg_data i) ;;; write_bytes m (S i) reg_data
  end.

Definition i2c_write (addr reg_addr : Z) (reg_data : list Z) (length : Z)
  : HW Z :=
  let addr := to_u8 addr in
  let reg_addr := to_u8 reg_addr in
  let length := to_u32 length in
  beginTransmission addr ;;;
  write reg_addr ;;;
  write_bytes (Z.to_nat length) 0 reg_data ;;;
  e <- endTransmission true ;;
  if negb (e =? 0) then ret (to_u8 (-1)) else ret 0.

(** ** The driver object *)

(** The touch-event snapshot, [data] in the source.  Its fields hold what the
    source assigns to them: bytes for [gestureID], [points], [event] and
    [version], [int] for [x] and [y] (they are passed to [rotatePoint] by
    [int] reference), three bytes for [versionInfo]. *)
Record data_struct : Set := mkData {
  gestureID : Z;
  points : Z;
  event : Z;
  x : Z;
  y : Z;
  version : Z;
  versionInfo : list Z
}.

Section Driver.

Context {hdr : CST816S_h}.

(** What a user callback can act on.  It runs in interrupt context and
    does not touch the driver object. *)
Variable World : Type.

(** [hw] stands for the reference member [_wire] and for the pins and
    timers of the Arduino core: all of them act on the one board. *)
Record CST816S : Type := mkDriver {
  hw : Board;
  _sda : Z;
  _scl : Z;
  _rst : Z;
  _irq : Z;
  _rotation : Z;
  _width : Z;
  _height : Z;
  _event_available : bool;
  userISR : option (World -> World);
  data : data_struct
}.

Definition with_hw (b : Board) (s : CST816S) : CST816S :=
  mkDriver b (_sda s) (_scl s) (_rst s) (_irq s) (_rotation s) (_width s)
           (_height s) (_event_available s) (userISR s) (data s).

Definition with_data (d : data_struct) (s : CST816S) : CST816S :=
  mkDriver (hw s) (_sda s) (_scl s) (_rst s) (_irq s) (_rotation s)
           (_width s) (_height s) (_event_available s) (userISR s) d.

Definition with_event_available (f : bool) (s : CST816S) : CST816S :=
  mkDriver (hw s) (_sda s) (_scl s) (_rst s) (_irq s) (_rotation s)
           (_width s) (_height s) f (userISR s) (data s).

(** Runs a board computation on the driver's board and hands its result
    to the continuation. *)
Definition on_board {A : Type} (m : HW A) (s : CST816S) : A * CST816S :=
  let (a, b) := m (hw s) in (a, with_hw b s).

(** The constructors assign five members; [self] is the object as the
    member initialisers of the header leave it. *)
Definition CST816S_ctor (self : CST816S) (sda scl rst irq : Z) : CST816S :=
  mkDriver (hw self) sda scl rst irq 0 (_width self) (_height self)
           (_event_available self) (userISR self) (data self).

Definition CST816S_ctor_rot (self : CST816S) (sda scl rst irq rotation : Z)
  : CST816S :=
  mkDriver (hw self) sda scl rst irq rotation (_width self) (_height self)
           (_event_available self) (userISR self) (data self).

Definition setSize (w h : Z) (s : CST816S) : CST816S :=
  mkDriver (hw s) (_sda s) (_scl s) (_rst s) (_irq s) (_rotation s) w h
           (_event_available s) (userISR s) (data s).

Definition setRotation (rotation : Z) (s : CST816S) : CST816S :=
  mkDriver (hw s) (_sda s) (_scl s) (_rst s) (_irq s) (c_rem rotation 4)
           (_width s) (_height s) (_event_available s) (userISR s) (data s).

Definition attachUserInterrupt (callback : option (World -> World))
           (s : CST816S) : CST816S :=
  mkDriver (hw s) (_sda s) (_scl s) (_rst s) (_irq s) (_rotation s)
           (_width s) (_height s) (_event_available s) callback (data s).

(** *** Rotation transform *)

Definition rotation90 : list Z := [0; 0x03; 0x04; 0x02; 0x01].
Definition rotation180 : list Z := [0; 0x02; 0x01; 0x04; 0x03].
Definition rotation270 : list Z := [0; 0x04; 0x03; 0x01; 0x02].

Definition rotateGesture (s : CST816S) (gestureID : Z) : Z :=
  if (gestureID <? 1) || (gestureID >? 4) || (_rotation s =? 0)
  then gestureID
  else
    match _rotation s with
    | 1 => at_index rotation90 (Z.to_nat gestureID)
    | 2 => at_index rotation180 (Z.to_nat gestureID)
    | 3 => at_index rotation270 (Z.to_nat gestureID)
    | _ => gestureID
    end.

(** The two [int] references become a pair. *)
Definition rotatePoint (s : CST816S) (p : Z * Z) : Z * Z :=
  let oldX := fst p in
  let oldY := snd p in
  match _rotation s with
  | 1 => (oldY, to_int (to_int (_width s - 1) - oldX))
  | 2 => (to_int (to_int (_width s - 1) - oldX),
          to_int (to_int (_height s - 1) - oldY))
  | 3 => (to_int (to_int (_height s - 1) - oldY), oldX)
  | _ => (oldX, oldY)
  end.

(** *** Register protocol *)

(** [data_raw] is the local array as [read_touch] finds it: it is
    declared without an initialiser, so its eight bytes are whatever the
    stack holds, and they are an argument here. *)
Definition read_touch (data_raw : list Z) (s : CST816S) : CST816S :=
  let '((_, data_raw), s) :=
    on_board (i2c_read CST816S_ADDRESS 0x01 data_raw 6) s in
  let g := rotateGesture s (at_index data_raw 0) in
  let n := at_index data_raw 1 in
  let e := Z.shiftr (at_index data_raw 2) 6 in
  let px := Z.shiftl (Z.land (at_index data_raw 2) 0xF) 8
            + at_index data_raw 3 in
  let py := Z.shiftl (Z.land (at_index data_raw 4) 0xF) 8
            + at_index data_raw 5 in
  let p := rotatePoint s (px, py) in
  with_data (mkData g n e (fst p) (snd p)
                    (version (data s)) (versionInfo (data s))) s.

(** The interrupt handler acts on the driver and, through the callback,
    on the user's world. *)
Definition handleISR (su : CST816S * World) : CST816S * World :=
  let s := with_event_available true (fst su) in
  match userISR s with
  | Some callback => (s, callback (snd su))
  | None => (s, snd su)
  end.

Definition enable_double_click (s : CST816S) : CST816S :=
  let enableDoubleTap := 0x01 in
  snd (on_board (i2c_write CST816S_ADDRESS 0xEC [enableDoubleTap] 1) s).

Definition disable_auto_sleep (s : CST816S) : CST816S :=
  let disableAutoSleep := 0xFE in
  snd (on_board (i2c_write CST816S_ADDRESS 0xFE [disableAutoSleep] 1) s).

Definition enable_auto_sleep (s : CST816S) : CST816S :=
  let enableAutoSleep := 0x00 in
  snd (on_board (i2c_write CST816S_ADDRESS 0xFE [enableAutoSleep] 1) s).

Definition set_auto_sleep_time (seconds : Z) (s : CST816S) : CST816S :=
  let seconds :=
    if seconds <? 1 then 1
    else if seconds >? 255 then 255
    else seconds in
  let sleepTime := to_u8 seconds in
  snd (on_board (i2c_write CST816S_ADDRESS 0xF9 [sleepTime] 1) s).

Definition begin (interrupt : Z) (s : CST816S) : CST816S :=
  let '(_, s) := on_board (
    wire_begin (_sda s) (_scl s) 400000 ;;;
    pinMode (_irq s) INPUT ;;;
    pinMode (_rst s) OUTPUT ;;;
    digitalWrite (_rst s) HIGH ;;;
    delay 50 ;;;
    digitalWrite (_rst s) LOW ;;;
    delay 5 ;;;
    digitalWrite (_rst s) HIGH ;;;
    delay 50) s in
  let '((_, v), s) :=
    on_board (i2c_read CST816S_ADDRESS 0x15 [version (data s)] 1) s in
  let d := data s in
  let s := with_data (mkData (gestureID d) (points d) (event d) (x d) (y d)
                             (at_index v 0) (versionInfo d)) s in
  let '(_, s) := on_board (delay 5) s in
  let '((_, vi), s) :=
    on_board (i2c_read CST816S_ADDRESS 0xA7 (versionInfo (data s)) 3) s in
  let d := data s in
  let s := with_data (mkData (gestureID d) (points d) (event d) (x d) (y d)
                             (version d) vi) s in
  snd (on_board (attachInterrupt (_irq s) interrupt) s).

(** *** Event state machine *)

Definition available (data_raw : list Z) (s : CST816S) : bool * CST816S :=
  if _event_available s then
    let s := read_touch data_raw s in
    let s := with_event_available false s in
    (true, s)
  else (false, s).

Definition sleep (s : CST816S) : CST816S :=
  let '(_, s) := on_board (
    digitalWrite (_rst s) LOW ;;;
    delay 5 ;;;
    digitalWrite (_rst s) HIGH ;;;
    delay 50) s in
  let standby_value := 0x03 in
  snd (on_board (i2c_write CST816S_ADDRESS 0xA5 [standby_value] 1) s).

(** A [switch] over the enumerators, in the order of the source. *)
Definition gesture (s : CST816S) : string :=
  let g := gestureID (data s) in
  if g =? NONE then "NONE"
  else if g =? SWIPE_DOWN then "SWIPE DOWN"
  else if g =? SWIPE_UP then "SWIPE UP"
  else if g =? SWIPE_LEFT then "SWIPE LEFT"
  else if g =? SWIPE_RIGHT then "SWIPE RIGHT"
  else if g =? SINGLE_CLICK then "SINGLE CLICK"
  else if g =? DOUBLE_CLICK then "DOUBLE CLICK"
  else if g =? LONG_PRESS then "LONG PRESS"
  else "UNKNOWN"%string.

(** The names [gesture] can return. *)
Definition gesture_names : list string :=
  ["NONE"; "SWIPE DOWN"; "SWIPE UP"; "SWIPE LEFT"; "SWIPE RIGHT";
   "SINGLE CLICK"; "DOUBLE CLICK"; "LONG PRESS"; "UNKNOWN"]%string.

(** The enumerators of [GESTURE]. *)
Definition gesture_codes : list Z :=
  [NONE; SWIPE_UP; SWIPE_DOWN; SWIPE_LEFT; SWIPE_RIGHT;
   SINGLE_CLICK; DOUBLE_CLICK; LONG_PRESS].

(** *** Runs of the state machine *)

(** [n] interrupt edges in a row. *)
Fixpoint interrupts (n : nat) (su : CST816S * World) : CST816S * World :=
  match n with
  | O => su
  | S m => interrupts m (handleISR su)
  end.

(** One poll per element of [stacks] (the stack contents each call of
    [read_touch] would find); the answers come in call order. *)
Fixpoint polls (stacks : list (list Z)) (s : CST816S)
  : list bool * CST816S :=
  match stacks with
  | [] => ([], s)
  | data_raw :: rest =>
      let (r, s1) := available data_raw s in
      let (rs, s2) := polls rest s1 in
      (r :: rs, s2)
  end.

End Driver.

Arguments mkDriver {World}.
Arguments hw {World}.
Arguments _sda {World}.
Arguments _scl {World}.
Arguments _rst {World}.
Arguments _irq {World}.
Arguments _rotation {World}.
Arguments _width {World}.
Arguments _height {World}.
Arguments _event_available {World}.
Arguments userISR {World}.
Arguments data {World}.
Arguments with_hw {World}.
Arguments with_data {World}.
Arguments with_event_available {World}.
Arguments on_board {World A}.
Arguments CST816S_ctor {World}.
Arguments CST816S_ctor_rot {World}.
Arguments setSize {World}.
Arguments setRotation {World}.
Arguments attachUserInterrupt {World}.
Arguments rotateGesture {World}.
Arguments rotatePoint {World}.
Arguments read_touch {hdr World}.
Arguments handleISR {World}.
Arguments enable_double_click {hdr World}.
Arguments disable_auto_sleep {hdr World}.
Arguments enable_auto_sleep {hdr World}.
Arguments set_auto_sleep_time {hdr World}.
Arguments begin {hdr World}.
Arguments available {hdr World}.
Arguments sleep {hdr World}.
Arguments gesture {hdr World}.
Arguments gesture_codes {hdr}.
Arguments interrupts {World}.
Arguments polls {hdr World}.

(** ** Sample objects

    Concrete values on which the statements below are exercised. *)

(** The header of the library this driver derives from. *)
Definition sample_header : CST816S_h :=
  {| CST816S_ADDRESS := 0x15;
     NONE := 0x00;
     SWIPE_UP := 0x01;
     SWIPE_DOWN := 0x02;
     SWIPE_LEFT := 0x03;
     SWIPE_RIGHT := 0x04;
     SINGLE_CLICK := 0x05;
     DOUBLE_CLICK := 0x0B;
     LONG_PRESS := 0x0C |}.

(** A board on which the next transaction is acknowledged and answered with
    [block]. *)
Definition board_answering (block : list Z) : Board :=
  mkBoard [] [0] [block] [].

(** A board on which the next transaction is not acknowledged. *)
Definition board_silent : Board := mkBoard [] [2] [] [].

(** A 240 x 240 panel on pins 21, 22, 5, 4; the snapshot holds an earlier
    reading. *)
Definition sample_driver (b : Board) (rotation : Z) (pending : bool)
  : CST816S unit :=
  mkDriver b 21 22 5 4 rotation 240 240 pending None
           (mkData 5 1 2 120 100 0xB4 [0xB4; 0x00; 0x01]).

Definition fixture_block : list Z := [0x02; 0x01; 0x30; 0x50; 0x20; 0x10].

Definition zero_stack : list Z := [0; 0; 0; 0; 0; 0; 0; 0].

(** ** Runs of interrupts and polls *)

(** What can happen to the driver from outside: an interrupt edge, or a
    call of [available] (with the stack contents [read_touch] would find). *)
Inductive Stimulus : Type :=
| Edge
| Poll (data_raw : list Z).

Section Runs.

Context {hdr : CST816S_h}.
Variable World : Type.

(** The stimuli in order; the answers of the polls come in call order. *)
Fixpoint run (events : list Stimulus) (su : CST816S World * World)
  : list bool * (CST816S World * World) :=
  match events with
  | [] => ([], su)
  | Edge :: rest => run rest (handleISR su)
  | Poll data_raw :: rest =>
      let (r, s1) := available data_raw (fst su) in
      let (rs, final) := run rest (s1, snd su) in
      (r :: rs, final)
  end.

End Runs.

Arguments run {hdr World}.

(** The number of interrupt edges among the stimuli. *)
Fixpoint edges (events : list Stimulus) : nat :=
  match events with
  | [] => O
  | Edge :: rest => S (edges rest)
  | Poll _ :: rest => edges rest
  end.

(** The number of polls that answered true. *)
Definition reported (answers : list bool) : nat :=
  count_occ bool_dec answers true.

(** The calls of the reset pulse that [sleep] starts with. *)
Definition reset_pulse (rst : Z) : list HwCall :=
  [CallDigitalWrite rst LOW; CallDelay 5;
   CallDigitalWrite rst HIGH; CallDelay 50].

(** The calls [begin] makes before it reads the version registers. *)
Definition begin_prologue (sda scl rst irq : Z) : list HwCall :=
  [CallWireBegin sda scl 400000; CallPinMode irq INPUT;
   CallPinMode rst OUTPUT; CallDigitalWrite rst HIGH; CallDelay 50;
   CallDigitalWrite rst LOW; CallDelay 5; CallDigitalWrite rst HIGH;
   CallDelay 50].

(** What a loop of [n] calls of [read] stores when the chip sent [reply]:
    the bytes received, then 255 (the byte of -1) for each missing one. *)
Definition received (n : nat) (reply : list Z) : list Z :=
  map to_u8 (firstn n reply) ++ repeat 255 (n - List.length reply).

(** The calls of one register read on the bus. *)
Definition read_calls (addr reg_addr : Z) (n : nat) (acked : bool)
  : list HwCall :=
  [CallBeginTransmission addr; CallWrite reg_addr; CallEndTransmission true]
  ++ (if acked
      then CallRequestFrom addr (Z.of_nat n) true :: repeat CallRead n
      else []).

(** The calls of one register write on the bus. *)
Definition write_calls (addr reg_addr : Z) (payload : list Z) : list HwCall :=
  [CallBeginTransmission addr; CallWrite reg_addr]
  ++ map CallWrite payload ++ [CallEndTransmission true].

(** A driver whose callback counts the interrupts. *)
Definition counting_driver (b : Board) (pending : bool) : CST816S nat :=
  attachUserInterrupt (Some S)
    (mkDriver b 21 22 5 4 0 240 240 pending None
              (mkData 5 1 2 120 100 0xB4 [0xB4; 0x00; 0x01])).

(** Unfolds the calls on the board down to the record of the board. *)
Ltac run_board :=
  unfold i2c_read, i2c_write, bind, ret, beginTransmission, write, emit,
    endTransmission, requestFrom, next_ack, next_reply in *;
  cbn [trace acks replies rx fst snd hd] in *.

(** * Properties *)

(** ** Machine integers *)

Lemma to_int_small (z : Z) : is_int z -> to_int z = z.
Proof.
  unfold is_int, to_int. intros Hz.
  rewrite Z.mod_small; lia.
Qed.

Lemma to_int_sub_r (a b : Z) : to_int (a - to_int b) = to_int (a - b).
Proof.
  unfold to_int. f_equal.
  replace (a - ((b + 2147483648) mod 4294967296 - 2147483648) + 2147483648)
    with ((a + 4294967296) - (b + 2147483648) mod 4294967296) by lia.
  rewrite Zminus_mod_idemp_r. f_equal. lia.
Qed.

Lemma to_int_is_int (z : Z) : is_int (to_int z).
Proof.
  unfold is_int, to_int.
  pose proof (Z.mod_pos_bound (z + 2147483648) 4294967296). lia.
Qed.

(** Subtracting twice from the same value gives the start back. *)
Lemma to_int_flip_flip (a v : Z) :
  is_int v -> to_int (a - to_int (a - v)) = v.
Proof.
  intros Hv. rewrite to_int_sub_r.
  replace (a - (a - v)) with v by lia.
  now apply to_int_small.
Qed.

Lemma to_u8_small (z : Z) : is_u8 z -> to_u8 z = z.
Proof. unfold is_u8, to_u8. intros Hz. now apply Z.mod_small. Qed.

Lemma to_u8_is_u8 (z : Z) : is_u8 (to_u8 z).
Proof. unfold is_u8, to_u8. apply Z.mod_pos_bound. lia. Qed.

(** ** Rotation of gestures *)

Section GestureRotation.

Variable World : Type.
Implicit Type s : CST816S World.

Lemma rotateGesture_rotation_0 s g :
  _rotation s = 0 -> rotateGesture s g = g.
Proof.
  intros Hr. unfold rotateGesture. rewrite Hr.
  now rewrite Z.eqb_refl, orb_true_r.
Qed.

Lemma rotateGesture_not_swipe s g :
  ~ (1 <= g <= 4) -> rotateGesture s g = g.
Proof.
  intros Hg. unfold rotateGesture.
  destruct (g <? 1) eqn:E1; [reflexivity|].
  destruct (g >? 4) eqn:E2; [reflexivity|].
  apply Z.ltb_ge in E1. rewrite Z.gtb_ltb in E2. apply Z.ltb_ge in E2. lia.
Qed.

(** The swipe identifiers, one by one. *)
Lemma swipe_cases g : 1 <= g <= 4 -> g = 1 \/ g = 2 \/ g = 3 \/ g = 4.
Proof. lia. Qed.

(** On a swipe identifier and a quarter-turn setting, [rotateGesture] is
    the table lookup. *)
Lemma rotateGesture_table s r g :
  _rotation s = r -> 1 <= r <= 3 -> 1 <= g <= 4 ->
  rotateGesture s g =
  at_index (match r with
            | 1 => rotation90 | 2 => rotation180 | _ => rotation270
            end) (Z.to_nat g).
Proof.
  intros Hr Rr Hg. unfold rotateGesture. rewrite Hr.
  assert (r = 1 \/ r = 2 \/ r = 3) as [-> | [-> | ->]] by lia;
    destruct (swipe_cases g Hg) as [-> | [-> | [-> | ->]]]; reflexivity.
Qed.

Lemma rotateGesture_swipe_range s g :
  1 <= _rotation s <= 3 -> 1 <= g <= 4 -> 1 <= rotateGesture s g <= 4.
Proof.
  intros Rr Hg. rewrite (rotateGesture_table s (_rotation s) g eq_refl Rr Hg).
  assert (_rotation s = 1 \/ _rotation s = 2 \/ _rotation s = 3)
    as [-> | [-> | ->]] by lia;
    destruct (swipe_cases g Hg) as [-> | [-> | [-> | ->]]];
    vm_compute; intuition discriminate.
Qed.

Lemma rotateGesture_swipe_injective s g h :
  1 <= _rotation s <= 3 -> 1 <= g <= 4 -> 1 <= h <= 4 ->
  rotateGesture s g = rotateGesture s h -> g = h.
Proof.
  intros Rr Hg Hh.
  rewrite (rotateGesture_table s (_rotation s) g eq_refl Rr Hg).
  rewrite (rotateGesture_table s (_rotation s) h eq_refl Rr Hh).
  assert (_rotation s = 1 \/ _rotation s = 2 \/ _rotation s = 3)
    as [-> | [-> | ->]] by lia;
    destruct (swipe_cases g Hg) as [-> | [-> | [-> | ->]]];
    destruct (swipe_cases h Hh) as [-> | [-> | [-> | ->]]];
    vm_compute; congruence.
Qed.

Lemma rotateGesture_swipe_surjective s h :
  1 <= _rotation s <= 3 -> 1 <= h <= 4 ->
  exists g, 1 <= g <= 4 /\ rotateGesture s g = h.
Proof.
  intros Rr Hh.
  assert (forall g, 1 <= g <= 4 ->
            rotateGesture s g = at_index
              (match _rotation s with
               | 1 => rotation90 | 2 => rotation180 | _ => rotation270
               end) (Z.to_nat g)) as T
    by (intros; now apply rotateGesture_table).
  assert (_rotation s = 1 \/ _rotation s = 2 \/ _rotation s = 3)
    as [E | [E | E]] by lia; rewrite E in T;
    destruct (swipe_cases h Hh) as [-> | [-> | [-> | ->]]].
  - exists 4. split; [lia | now rewrite T by lia].
  - exists 3. split; [lia | now rewrite T by lia].
  - exists 1. split; [lia | now rewrite T by lia].
  - exists 2. split; [lia | now rewrite T by lia].
  - exists 2. split; [lia | now rewrite T by lia].
  - exists 1. split; [lia | now rewrite T by lia].
  - exists 4. split; [lia | now rewrite T by lia].
  - exists 3. split; [lia | now rewrite T by lia].
  - exists 3. split; [lia | now rewrite T by lia].
  - exists 4. split; [lia | now rewrite T by lia].
  - exists 2. split; [lia | now rewrite T by lia].
  - exists 1. split; [lia | now rewrite T by lia].
Qed.

(** C4.  With rotation 0 [rotateGesture] is the identity on every gesture
    identifier; an identifier outside the four swipes 1..4 is a fixed point
    under every rotation; and under each of the rotations 1, 2, 3 the
    function maps the swipes 1..4 one-to-one onto the swipes 1..4. *)
Theorem rotateGesture_permutes_swipes s :
  (_rotation s = 0 -> forall g, rotateGesture s g = g) /\
  (forall g, ~ (1 <= g <= 4) -> rotateGesture s g = g) /\
  (1 <= _rotation s <= 3 ->
   (forall g, 1 <= g <= 4 -> 1 <= rotateGesture s g <= 4) /\
   (forall g h, 1 <= g <= 4 -> 1 <= h <= 4 ->
                rotateGesture s g = rotateGesture s h -> g = h) /\
   (forall h, 1 <= h <= 4 ->
              exists g, 1 <= g <= 4 /\ rotateGesture s g = h)).
Proof.
  split; [| split].
  - intros Hr g. now apply rotateGesture_rotation_0.
  - apply rotateGesture_not_swipe.
  - intros Rr. split; [| split].
    + intros g. now apply rotateGesture_swipe_range.
    + intros g h. now apply rotateGesture_swipe_injective.
    + intros h. now apply rotateGesture_swipe_surjective.
Qed.

End GestureRotation.

(** ** Rotation of points *)

Section PointRotation.

Variable World : Type.
Implicit Type s : CST816S World.

Lemma rotatePoint_rotation_1 s p :
  _rotation s = 1 ->
  rotatePoint s p = (snd p, to_int (to_int (_width s - 1) - fst p)).
Proof. intros Hr. unfold rotatePoint. now rewrite Hr. Qed.

Lemma rotatePoint_rotation_2 s p :
  _rotation s = 2 ->
  rotatePoint s p = (to_int (to_int (_width s - 1) - fst p),
                     to_int (to_int (_height s - 1) - snd p)).
Proof. intros Hr. unfold rotatePoint. now rewrite Hr. Qed.

Lemma rotatePoint_rotation_3 s p :
  _rotation s = 3 ->
  rotatePoint s p = (to_int (to_int (_height s - 1) - snd p), fst p).
Proof. intros Hr. unfold rotatePoint. now rewrite Hr. Qed.

Lemma rotatePoint_no_rotation s p :
  ~ (1 <= _rotation s <= 3) -> rotatePoint s p = p.
Proof.
  intros Hr. unfold rotatePoint.
  destruct (_rotation s) as [| q | q]; try now destruct p.
  destruct q as [[q | q |] | [q | q |] |]; try now destruct p.
  all: exfalso; apply Hr; lia.
Qed.

(** A half turn undoes itself, whatever the declared size. *)
Lemma rotatePoint_half_turn_twice s px py :
  _rotation s = 2 -> is_int px -> is_int py ->
  rotatePoint s (rotatePoint s (px, py)) = (px, py).
Proof.
  intros Hr Hx Hy.
  rewrite (rotatePoint_rotation_2 s (px, py) Hr).
  rewrite (rotatePoint_rotation_2 s _ Hr). cbn [fst snd].
  now rewrite !to_int_flip_flip.
Qed.

(** The two quarter turns undo each other as soon as the width the 90
    degree turn uses is the height the 270 degree turn uses. *)
Lemma rotatePoint_quarter_turns s1 s3 px py :
  _rotation s1 = 1 -> _rotation s3 = 3 -> _width s1 = _height s3 ->
  is_int px -> is_int py ->
  rotatePoint s3 (rotatePoint s1 (px, py)) = (px, py) /\
  rotatePoint s1 (rotatePoint s3 (px, py)) = (px, py).
Proof.
  intros H1 H3 Hwh Hx Hy. split.
  - rewrite (rotatePoint_rotation_1 s1 _ H1).
    rewrite (rotatePoint_rotation_3 s3 _ H3). cbn [fst snd].
    rewrite <- Hwh. now rewrite to_int_flip_flip.
  - rewrite (rotatePoint_rotation_3 s3 _ H3).
    rewrite (rotatePoint_rotation_1 s1 _ H1). cbn [fst snd].
    rewrite Hwh. now rewrite to_int_flip_flip.
Qed.

(** With one declared size for both turns, a 90 degree turn followed by a
    270 degree turn shifts x by height - width. *)
Lemma rotatePoint_quarter_turns_same_size s1 s3 px py :
  _rotation s1 = 1 -> _rotation s3 = 3 ->
  _width s3 = _width s1 -> _height s3 = _height s1 ->
  rotatePoint s3 (rotatePoint s1 (px, py)) =
  (to_int (to_int (_height s1 - 1) - to_int (to_int (_width s1 - 1) - px)),
   py).
Proof.
  intros H1 H3 Hw Hh.
  rewrite (rotatePoint_rotation_1 s1 _ H1).
  rewrite (rotatePoint_rotation_3 s3 _ H3). cbn [fst snd].
  now rewrite Hh.
Qed.

(** Without overflow the four cases are the formulas of the rotation
    table. *)
Lemma rotatePoint_formulas s px py :
  0 <= px < 2147483648 -> 0 <= py < 2147483648 ->
  0 <= _width s < 2147483648 -> 0 <= _height s < 2147483648 ->
  (_rotation s = 0 -> rotatePoint s (px, py) = (px, py)) /\
  (_rotation s = 1 -> rotatePoint s (px, py) = (py, _width s - 1 - px)) /\
  (_rotation s = 2 ->
   rotatePoint s (px, py) = (_width s - 1 - px, _height s - 1 - py)) /\
  (_rotation s = 3 -> rotatePoint s (px, py) = (_height s - 1 - py, px)).
Proof.
  intros Hx Hy Hw Hh. unfold rotatePoint. cbn [fst snd].
  repeat split; intros ->; try reflexivity;
    rewrite ?(to_int_small (_width s - 1)), ?(to_int_small (_height s - 1))
      by (unfold is_int; lia);
    rewrite ?to_int_small by (unfold is_int; lia); reflexivity.
Qed.

(** C5, as the code has it.  A half turn composed with itself is the
    identity for every declared size.  The 90 and 270 degree turns are
    inverse to each other, in either order, when the second turn is given
    the size of the rotated frame (width and height exchanged), hence for one
    declared size when the display is square.  The four cases are the
    formulas 0: identity; 90: x' = y, y' = W - 1 - x; 180: x' = W - 1 - x,
    y' = H - 1 - y; 270: x' = H - 1 - y, y' = x. *)
Theorem rotatePoint_inverse_turns s (W H px py : Z) :
  is_int px -> is_int py ->
  let turned r w h := setRotation r (setSize w h s) in
  rotatePoint (turned 2 W H) (rotatePoint (turned 2 W H) (px, py)) = (px, py)
  /\ rotatePoint (turned 3 H W) (rotatePoint (turned 1 W H) (px, py))
     = (px, py)
  /\ rotatePoint (turned 1 H W) (rotatePoint (turned 3 W H) (px, py))
     = (px, py)
  /\ (W = H ->
      rotatePoint (turned 3 W H) (rotatePoint (turned 1 W H) (px, py))
      = (px, py) /\
      rotatePoint (turned 1 W H) (rotatePoint (turned 3 W H) (px, py))
      = (px, py))
  /\ (0 <= px -> 0 <= py -> 0 <= W < 2147483648 -> 0 <= H < 2147483648 ->
      rotatePoint (turned 0 W H) (px, py) = (px, py) /\
      rotatePoint (turned 1 W H) (px, py) = (py, W - 1 - px) /\
      rotatePoint (turned 2 W H) (px, py) = (W - 1 - px, H - 1 - py) /\
      rotatePoint (turned 3 W H) (px, py) = (H - 1 - py, px)).
Proof.
  intros Hx Hy turned.
  split; [| split; [| split; [| split]]].
  - now apply rotatePoint_half_turn_twice.
  - now apply (rotatePoint_quarter_turns (turned 1 W H) (turned 3 H W)).
  - now apply (rotatePoint_quarter_turns (turned 1 H W) (turned 3 W H)).
  - intros ->.
    now apply (rotatePoint_quarter_turns (turned 1 H H) (turned 3 H H)).
  - intros Px Py HW HH.
    assert (Hx' : 0 <= px < 2147483648) by (unfold is_int in Hx; lia).
    assert (Hy' : 0 <= py < 2147483648) by (unfold is_int in Hy; lia).
    pose proof (rotatePoint_formulas (turned 0 W H) px py Hx' Hy' HW HH)
      as (F0 & _).
    pose proof (rotatePoint_formulas (turned 1 W H) px py Hx' Hy' HW HH)
      as (_ & F1 & _).
    pose proof (rotatePoint_formulas (turned 2 W H) px py Hx' Hy' HW HH)
      as (_ & _ & F2 & _).
    pose proof (rotatePoint_formulas (turned 3 W H) px py Hx' Hy' HW HH)
      as (_ & _ & _ & F3).
    split; [exact (F0 eq_refl) | split; [exact (F1 eq_refl) | split]].
    + exact (F2 eq_refl).
    + exact (F3 eq_refl).
Qed.

End PointRotation.

(** C5, counterexample.  On a 240 x 280 panel the 90 degree turn followed by
    the 270 degree turn sends the origin to (40, 0), and the 270 degree turn
    followed by the 90 degree turn sends it to (0, -40). *)
Lemma rotatePoint_quarter_turns_not_inverse :
  let d := setSize 240 280 (sample_driver board_silent 0 false) in
  rotatePoint (setRotation 3 d) (rotatePoint (setRotation 1 d) (0, 0))
    <> (0, 0) /\
  rotatePoint (setRotation 1 d) (rotatePoint (setRotation 3 d) (0, 0))
    <> (0, 0).
Proof. split; vm_compute; discriminate. Qed.

(** ** Rotation setting *)

Section RotationSetting.

Variable World : Type.
Implicit Type s : CST816S World.

Lemma setRotation_rem s n : _rotation (setRotation n s) = Z.rem n 4.
Proof. reflexivity. Qed.

(** For an argument that is not negative [setRotation] stores the residue
    modulo 4. *)
Lemma setRotation_nonneg s n :
  0 <= n ->
  _rotation (setRotation n s) = n mod 4 /\
  0 <= _rotation (setRotation n s) <= 3.
Proof.
  intros Hn. rewrite setRotation_rem, Z.rem_mod_nonneg by lia.
  pose proof (Z.mod_pos_bound n 4). lia.
Qed.

Lemma CST816S_ctor_rotation s sda scl rst irq :
  _rotation (CST816S_ctor s sda scl rst irq) = 0.
Proof. reflexivity. Qed.

Lemma CST816S_ctor_rot_rotation s sda scl rst irq rotation :
  _rotation (CST816S_ctor_rot s sda scl rst irq rotation) = rotation.
Proof. reflexivity. Qed.

(** A stored rotation outside 1..3 turns nothing: gestures and points pass
    through unchanged. *)
Lemma unknown_rotation_is_no_rotation s g p :
  ~ (1 <= _rotation s <= 3) ->
  rotateGesture s g = g /\ rotatePoint s p = p.
Proof.
  intros Hr. split; [| now apply rotatePoint_no_rotation].
  unfold rotateGesture.
  destruct ((g <? 1) || (g >? 4) || (_rotation s =? 0)); [reflexivity|].
  destruct (_rotation s) as [| q | q]; try reflexivity.
  destruct q as [[q | q |] | [q | q |] |]; try reflexivity.
  all: exfalso; apply Hr; lia.
Qed.

End RotationSetting.

(** C3, the code at the failing inputs.  The constructor that takes a
    rotation stores 5 for the argument 5, where [setRotation 5] stores 1; and
    [setRotation (-1)] stores -1, where -1 modulo 4 is 3.  Neither stored
    value is one of 0, 1, 2, 3. *)
Theorem rotation_left_unnormalized :
  let d := sample_driver board_silent 0 false in
  _rotation (CST816S_ctor_rot d 21 22 5 4 5) = 5 /\
  _rotation (setRotation 5 d) = 1 /\
  _rotation (setRotation (-1) d) = -1 /\
  (-1) mod 4 = 3 /\
  ~ (0 <= _rotation (CST816S_ctor_rot d 21 22 5 4 5) <= 3) /\
  ~ (0 <= _rotation (setRotation (-1) d) <= 3).
Proof. vm_compute. intuition discriminate || (auto; congruence). Qed.

(** ** Gesture names *)

Section GestureNames.

Context {hdr : CST816S_h}.
Variable World : Type.
Implicit Type s : CST816S World.

Lemma gesture_is_named s : In (gesture s) gesture_names.
Proof.
  unfold gesture, gesture_names.
  repeat match goal with
         | |- context [if ?c then _ else _] => destruct c
         end; cbn; tauto.
Qed.

Lemma gesture_unknown s :
  ~ In (gestureID (data s)) gesture_codes -> gesture s = "UNKNOWN"%string.
Proof.
  intros Hout. unfold gesture.
  repeat match goal with
         | |- context [?a =? ?b] =>
             destruct (Z.eqb_spec a b) as [E | _];
             [exfalso; apply Hout; rewrite E; cbn; tauto |]
         end.
  reflexivity.
Qed.

(** C9.  Whatever gesture identifier is stored, [gesture] returns one of
    the nine names, and for an identifier that is none of the enumerators it
    returns UNKNOWN. *)
Theorem gesture_name_total s :
  In (gesture s) gesture_names /\
  (~ In (gestureID (data s)) gesture_codes -> gesture s = "UNKNOWN"%string).
Proof. split; [apply gesture_is_named | apply gesture_unknown]. Qed.

End GestureNames.

(** ** The bus transport *)

(** A transmission that is not acknowledged: [i2c_read] returns 255, which
    is -1 as a byte, and leaves the destination array alone. *)
Lemma i2c_read_failure (addr reg_addr : Z) (reg_data : list Z) (len : Z)
      (b : Board) :
  next_ack b <> 0 ->
  fst (i2c_read addr reg_addr reg_data len b) = (255, reg_data) /\
  trace (snd (i2c_read addr reg_addr reg_data len b)) =
  trace b ++ [CallBeginTransmission (to_u16 addr); CallWrite (to_u8 reg_addr);
              CallEndTransmission true].
Proof.
  intros Hack. destruct b as [t ak rp r]. run_board.
  destruct ak as [| a ak']; cbn [hd] in Hack.
  - cbn. now rewrite <- !app_assoc.
  - destruct (Z.eqb_spec a 0) as [E | _]; [contradiction |].
    cbn. now rewrite <- !app_assoc.
Qed.

(** Likewise [i2c_write] returns 255 when the transmission is not
    acknowledged, and 0 when it is. *)
Lemma i2c_write_status (addr reg_addr : Z) (reg_data : list Z) (len : Z)
      (b : Board) :
  fst (i2c_write addr reg_addr reg_data len b) =
  if next_ack (snd (write_bytes (Z.to_nat (to_u32 len)) 0 reg_data
                      (snd (write (to_u8 reg_addr)
                         (snd (beginTransmission (to_u8 addr) b)))))) =? 0
  then 0 else 255.
Proof.
  unfold i2c_write, bind.
  destruct (beginTransmission (to_u8 addr) b) as [u1 b1]. cbn [snd].
  destruct (write (to_u8 reg_addr) b1) as [u2 b2]. cbn [snd].
  destruct (write_bytes (Z.to_nat (to_u32 len)) 0 reg_data b2) as [u3 b3].
  cbn [snd]. destruct b3 as [t ak rp r].
  unfold endTransmission, next_ack, ret. cbn [acks hd trace replies rx].
  destruct ak as [| a ak']; cbn; [reflexivity |].
  now destruct (a =? 0).
Qed.

(** Writing one byte puts four calls on the bus. *)
Lemma i2c_write_one_byte (addr reg_addr v : Z) (b : Board) :
  trace (snd (i2c_write addr reg_addr [v] 1 b)) =
  trace b ++ [CallBeginTransmission (to_u8 addr); CallWrite (to_u8 reg_addr);
              CallWrite v; CallEndTransmission true].
Proof.
  destruct b as [t ak rp r]. run_board.
  change (Z.to_nat (to_u32 1)) with 1%nat.
  cbn [write_bytes at_index nth]. run_board.
  destruct ak as [| a ak']; [| destruct (a =? 0)];
    cbn; now rewrite <- !app_assoc.
Qed.

Lemma store_is_u8 (i : nat) (v : Z) (a : list Z) :
  is_u8 v -> Forall is_u8 a -> Forall is_u8 (store i v a).
Proof.
  intros Hv Ha. revert i.
  induction Ha as [| h t Hh Ht IH]; intros i; cbn.
  - constructor.
  - destruct i; constructor; auto.
Qed.

Lemma store_length (i : nat) (v : Z) (a : list Z) :
  List.length (store i v a) = List.length a.
Proof.
  revert i. induction a as [| h t IH]; intros i; cbn; [reflexivity |].
  destruct i; cbn; auto.
Qed.

Lemma read_bytes_is_u8 (n i : nat) (reg_data : list Z) (b : Board) :
  Forall is_u8 reg_data -> Forall is_u8 (fst (read_bytes n i reg_data b)).
Proof.
  revert i reg_data b.
  induction n as [| m IH]; intros i reg_data b Hd; cbn [read_bytes].
  - exact Hd.
  - unfold bind. destruct (read b) as [v b']. apply IH.
    apply store_is_u8; [apply to_u8_is_u8 | exact Hd].
Qed.

(** Whatever the bus does, an array of bytes stays an array of bytes. *)
Lemma i2c_read_is_u8 (addr reg_addr : Z) (reg_data : list Z) (len : Z)
      (b : Board) :
  Forall is_u8 reg_data ->
  Forall is_u8 (snd (fst (i2c_read addr reg_addr reg_data len b))).
Proof.
  intros Hd. unfold i2c_read, bind.
  destruct (beginTransmission (to_u16 addr) b) as [u1 b1].
  destruct (write (to_u8 reg_addr) b1) as [u2 b2].
  destruct (endTransmission true b2) as [e b3].
  destruct (negb (e =? 0)); [exact Hd |].
  destruct (requestFrom (to_u16 addr) (to_u32 len) true b3) as [k b4].
  pose proof (read_bytes_is_u8 (Z.to_nat (to_u32 len)) 0 reg_data b4 Hd) as R.
  destruct (read_bytes (Z.to_nat (to_u32 len)) 0 reg_data b4) as [filled b5].
  exact R.
Qed.

Lemma at_index_is_u8 (a : list Z) (i : nat) :
  Forall is_u8 a -> is_u8 (at_index a i).
Proof.
  intros Ha. unfold at_index. revert i.
  induction Ha as [| h t Hh Ht IH]; intros [| j]; cbn; auto;
    unfold is_u8; lia.
Qed.

(** An acknowledged read of six bytes that the chip answers with six bytes
    fills the first six cells of an eight-byte array. *)
Lemma i2c_read_block (addr reg_addr : Z) (reg_data : list Z) (b : Board)
      (b0 b1 b2 b3 b4 b5 : Z) :
  next_ack b = 0 -> next_reply b = [b0; b1; b2; b3; b4; b5] ->
  List.length reg_data = 8%nat ->
  fst (i2c_read addr reg_addr reg_data 6 b) =
  (0, [to_u8 b0; to_u8 b1; to_u8 b2; to_u8 b3; to_u8 b4; to_u8 b5]
        ++ skipn 6 reg_data).
Proof.
  intros Hack Hrep Hlen.
  do 8 (destruct reg_data as [| ? reg_data]; [discriminate Hlen |]).
  destruct reg_data; [| discriminate Hlen].
  destruct b as [t ak rp r]. run_board.
  destruct ak as [| a ak']; cbn [hd] in Hack; [discriminate Hack |]. subst a.
  destruct rp as [| rep rp']; cbn [hd] in Hrep; [discriminate Hrep |].
  subst rep.
  change (Z.to_nat (to_u32 6)) with 6%nat.
  cbn [Z.eqb negb trace acks replies rx firstn].
  cbn [read_bytes]. unfold bind, read, ret.
  cbn [rx store fst snd skipn app acks replies trace]. reflexivity.
Qed.

(** ** Decoding the touch block *)

(** The high nibble shifted up and a byte share no bit. *)
Lemma nibble_byte_disjoint (a v : Z) :
  is_u8 v -> Z.land (Z.shiftl (Z.land a 0xF) 8) v = 0.
Proof.
  intros [Hv0 Hv1]. apply Z.bits_inj'. intros n Hn.
  rewrite Z.land_spec, Z.bits_0.
  destruct (Z.lt_ge_cases n 8) as [Hlow | Hhigh].
  - now rewrite Z.shiftl_spec_low.
  - replace (Z.testbit v n) with false; [apply andb_false_r |].
    symmetry. destruct (Z.eq_dec v 0) as [-> | Hnz]; [apply Z.bits_0 |].
    apply Z.bits_above_log2; [lia |].
    apply Z.log2_lt_pow2; [lia |].
    assert (2 ^ 8 <= 2 ^ n) by (apply Z.pow_le_mono_r; lia). lia.
Qed.

(** The sum the source computes is the bitwise or of the two parts, and it
    fits in twelve bits. *)
Lemma decode_coordinate (a v : Z) :
  is_u8 v ->
  Z.shiftl (Z.land a 0xF) 8 + v = Z.lor (Z.shiftl (Z.land a 0xF) 8) v /\
  0 <= Z.shiftl (Z.land a 0xF) 8 + v <= 4095.
Proof.
  intros Hv. split.
  - rewrite Z.add_nocarry_lxor by now apply nibble_byte_disjoint.
    now apply Z.lxor_lor, nibble_byte_disjoint.
  - change 0xF with (Z.ones 4). rewrite Z.land_ones by lia.
    rewrite Z.shiftl_mul_pow2 by lia.
    pose proof (Z.mod_pos_bound a (2 ^ 4)). unfold is_u8 in Hv. lia.
Qed.

Section Polling.

Context {hdr : CST816S_h}.
Variable World : Type.
Implicit Type s : CST816S World.

(** [read_touch] rebuilds five fields of the snapshot from the array
    [i2c_read] hands back, and keeps the two version fields. *)
Lemma read_touch_data (data_raw : list Z) s :
  let filled := snd (fst (i2c_read CST816S_ADDRESS 0x01 data_raw 6 (hw s))) in
  let p := rotatePoint s
             (Z.shiftl (Z.land (at_index filled 2) 0xF) 8 + at_index filled 3,
              Z.shiftl (Z.land (at_index filled 4) 0xF) 8 + at_index filled 5)
  in
  data (read_touch data_raw s) =
  mkData (rotateGesture s (at_index filled 0)) (at_index filled 1)
         (Z.shiftr (at_index filled 2) 6) (fst p) (snd p)
         (version (data s)) (versionInfo (data s)).
Proof.
  unfold read_touch, on_board.
  destruct (i2c_read CST816S_ADDRESS 1 data_raw 6 (hw s)) as [[st filled] b'].
  reflexivity.
Qed.

Lemma read_touch_frame (data_raw : list Z) s :
  let s' := read_touch data_raw s in
  _rotation s' = _rotation s /\ _width s' = _width s /\
  _height s' = _height s /\ _event_available s' = _event_available s /\
  userISR s' = userISR s.
Proof.
  unfold read_touch, on_board.
  destruct (i2c_read CST816S_ADDRESS 1 data_raw 6 (hw s)) as [[st filled] b'].
  cbn. auto.
Qed.

Lemma available_pending (data_raw : list Z) s :
  _event_available s = true ->
  available data_raw s =
  (true, with_event_available false (read_touch data_raw s)).
Proof. intros Hf. unfold available. now rewrite Hf. Qed.

Lemma available_idle (data_raw : list Z) s :
  _event_available s = false -> available data_raw s = (false, s).
Proof. intros Hf. unfold available. now rewrite Hf. Qed.

(** C1, as the code has it.  When a poll reads the six-byte block
    b0 .. b5, the snapshot holds: points = b1; event = b2 >> 6; gesture =
    rotateGesture(b0); and (x, y) is the image under rotatePoint of
    (((b2 & 0xF) << 8) | b3, ((b4 & 0xF) << 8) | b5), which is that pair
    itself when the stored rotation is none of 1, 2, 3.  With rotation 0 the
    block 02 01 30 50 20 10 gives gesture 2, one point, event 0, x = 80 and
    y = 16. *)
Theorem read_touch_decodes_block s (data_raw : list Z)
        (b0 b1 b2 b3 b4 b5 : Z) :
  _event_available s = true ->
  next_ack (hw s) = 0 ->
  next_reply (hw s) = [b0; b1; b2; b3; b4; b5] ->
  Forall is_u8 [b0; b1; b2; b3; b4; b5] ->
  List.length data_raw = 8%nat ->
  let d := data (snd (available data_raw s)) in
  let raw := (Z.lor (Z.shiftl (Z.land b2 0xF) 8) b3,
              Z.lor (Z.shiftl (Z.land b4 0xF) 8) b5) in
  points d = b1 /\
  event d = Z.shiftr b2 6 /\
  gestureID d = rotateGesture s b0 /\
  (x d, y d) = rotatePoint s raw /\
  (~ (1 <= _rotation s <= 3) -> (x d, y d) = raw) /\
  (_rotation s = 0 -> [b0; b1; b2; b3; b4; b5] = fixture_block ->
   gestureID d = 2 /\ points d = 1 /\ event d = 0 /\ x d = 80 /\ y d = 16).
Proof.
  intros Hf Hack Hrep Hu8 Hlen d raw.
  assert (Hd : d = mkData (rotateGesture s b0) b1 (Z.shiftr b2 6)
                          (fst (rotatePoint s raw)) (snd (rotatePoint s raw))
                          (version (data s)) (versionInfo (data s))).
  { subst d. rewrite (available_pending data_raw s Hf). cbn [snd].
    change (data (with_event_available false (read_touch data_raw s)))
      with (data (read_touch data_raw s)).
    rewrite read_touch_data.
    rewrite (i2c_read_block _ _ data_raw (hw s) b0 b1 b2 b3 b4 b5
               Hack Hrep Hlen).
    cbn [fst snd app at_index nth].
    repeat match goal with
           | H : Forall _ (_ :: _) |- _ => inversion H; clear H; subst
           end.
    rewrite !to_u8_small by assumption.
    subst raw.
    rewrite (proj1 (decode_coordinate b2 b3 ltac:(assumption))).
    rewrite (proj1 (decode_coordinate b4 b5 ltac:(assumption))).
    reflexivity. }
  rewrite Hd. cbn [points event gestureID x y].
  repeat split.
  - now destruct (rotatePoint s raw).
  - intros Hr. rewrite (rotatePoint_no_rotation World s raw Hr).
    now destruct raw.
  - injection H0 as -> _. now apply rotateGesture_rotation_0.
  - injection H0 as _ -> _. reflexivity.
  - injection H0 as _ _ -> _. reflexivity.
  - injection H0 as _ _ -> -> _ _.
    rewrite rotatePoint_no_rotation by (rewrite H; lia). reflexivity.
  - injection H0 as _ _ _ _ -> ->.
    rewrite rotatePoint_no_rotation by (rewrite H; lia). reflexivity.
Qed.

End Polling.

(** C1, counterexample.  With rotation 2 on the 240 x 240 panel the fixture
    block is stored as x = 159, y = 223, not as the 80 and 16 that the bytes
    spell. *)
Lemma read_touch_stores_rotated_point :
  let s := sample_driver (board_answering fixture_block) 2 true in
  let d := data (snd (available (hdr := sample_header) zero_stack s)) in
  x d = 159 /\ y d = 223 /\
  x d <> Z.lor (Z.shiftl (Z.land 0x30 0xF) 8) 0x50 /\
  y d <> Z.lor (Z.shiftl (Z.land 0x20 0xF) 8) 0x10.
Proof. vm_compute. repeat split; discriminate. Qed.

Section Bounds.

Context {hdr : CST816S_h}.
Variable World : Type.
Implicit Type s : CST816S World.

(** The point [read_touch] decodes, before it is rotated. *)
Lemma read_touch_point (data_raw : list Z) s :
  Forall is_u8 data_raw ->
  exists px py,
    0 <= px <= 4095 /\ 0 <= py <= 4095 /\
    (x (data (read_touch data_raw s)), y (data (read_touch data_raw s)))
    = rotatePoint s (px, py).
Proof.
  intros Hraw.
  pose proof (i2c_read_is_u8 CST816S_ADDRESS 0x01 data_raw 6 (hw s) Hraw)
    as Hfilled.
  rewrite read_touch_data. cbn zeta. cbn [x y].
  set (filled := snd (fst (i2c_read CST816S_ADDRESS 1 data_raw 6 (hw s))))
    in *.
  exists (Z.shiftl (Z.land (at_index filled 2) 15) 8 + at_index filled 3).
  exists (Z.shiftl (Z.land (at_index filled 4) 15) 8 + at_index filled 5).
  split; [| split].
  - apply decode_coordinate, at_index_is_u8, Hfilled.
  - apply decode_coordinate, at_index_is_u8, Hfilled.
  - now destruct (rotatePoint s _).
Qed.

(** The image of a twelve-bit point stays within twelve bits when nothing
    is rotated, and stays at most 4095 when the declared sides are at most
    4096. *)
Lemma rotatePoint_bound s (px py : Z) :
  0 <= px <= 4095 -> 0 <= py <= 4095 ->
  (~ (1 <= _rotation s <= 3) \/
   (0 <= _width s <= 4096 /\ 0 <= _height s <= 4096)) ->
  fst (rotatePoint s (px, py)) <= 4095 /\
  snd (rotatePoint s (px, py)) <= 4095.
Proof.
  intros Hx Hy [Hr | [Hw Hh]].
  - rewrite rotatePoint_no_rotation by exact Hr. cbn. lia.
  - unfold rotatePoint. cbn [fst snd].
    assert (Ew : to_int (_width s - 1) = _width s - 1)
      by (apply to_int_small; unfold is_int; lia).
    assert (Eh : to_int (_height s - 1) = _height s - 1)
      by (apply to_int_small; unfold is_int; lia).
    rewrite Ew, Eh.
    assert (Ex : to_int (_width s - 1 - px) = _width s - 1 - px)
      by (apply to_int_small; unfold is_int; lia).
    assert (Ey : to_int (_height s - 1 - py) = _height s - 1 - py)
      by (apply to_int_small; unfold is_int; lia).
    rewrite Ex, Ey.
    destruct (_rotation s) as [| q | q]; cbn [fst snd]; try lia.
    destruct q as [[q | q |] | [q | q |] |]; cbn [fst snd]; lia.
Qed.

(** C6, as the code has it.  After a poll the stored (x, y) is the image
    under rotatePoint of a point whose coordinates lie in 0..4095, whatever
    the bus delivered; the stored x and y themselves are at most 4095 when
    the stored rotation is none of 1, 2, 3, and also when the declared width
    and height lie in 0..4096. *)
Theorem polled_point_bound s (data_raw : list Z) :
  _event_available s = true ->
  Forall is_u8 data_raw ->
  let d := data (snd (available data_raw s)) in
  (exists px py,
     0 <= px <= 4095 /\ 0 <= py <= 4095 /\
     (x d, y d) = rotatePoint s (px, py)) /\
  (~ (1 <= _rotation s <= 3) -> 0 <= x d <= 4095 /\ 0 <= y d <= 4095) /\
  (0 <= _width s <= 4096 -> 0 <= _height s <= 4096 ->
   x d <= 4095 /\ y d <= 4095).
Proof.
  intros Hf Hraw d.
  assert (Hd : d = data (read_touch data_raw s))
    by (subst d; now rewrite (available_pending World data_raw s Hf)).
  destruct (read_touch_point data_raw s Hraw) as (px & py & Hx & Hy & E).
  rewrite <- Hd in E.
  split; [| split].
  - now exists px, py.
  - intros Hr. rewrite rotatePoint_no_rotation in E by exact Hr.
    injection E as -> ->. lia.
  - intros Hw Hh.
    pose proof (rotatePoint_bound s px py Hx Hy (or_intror (conj Hw Hh)))
      as [Bx By].
    rewrite <- E in Bx, By. exact (conj Bx By).
Qed.

End Bounds.

(** C6, counterexample.  With rotation 1 and a declared size of
    5000 x 5000 the fixture block is stored with y = 4919. *)
Lemma polled_point_exceeds_4095 :
  let s := setSize 5000 5000
             (sample_driver (board_answering fixture_block) 1 true) in
  let d := data (snd (available (hdr := sample_header) zero_stack s)) in
  y d = 4919 /\ ~ (y d <= 4095).
Proof. vm_compute. split; [reflexivity | intros H; now apply H]. Qed.

(** ** Failed transactions *)

Section Failure.

Context {hdr : CST816S_h}.
Variable World : Type.
Implicit Type s : CST816S World.

(** After a read that was not acknowledged, [read_touch] decodes the array
    as it found it on the stack. *)
Lemma read_touch_after_failure (data_raw : list Z) s :
  next_ack (hw s) <> 0 ->
  let p := rotatePoint s
             (Z.shiftl (Z.land (at_index data_raw 2) 0xF) 8
              + at_index data_raw 3,
              Z.shiftl (Z.land (at_index data_raw 4) 0xF) 8
              + at_index data_raw 5) in
  data (read_touch data_raw s) =
  mkData (rotateGesture s (at_index data_raw 0)) (at_index data_raw 1)
         (Z.shiftr (at_index data_raw 2) 6) (fst p) (snd p)
         (version (data s)) (versionInfo (data s)).
Proof.
  intros Hack. rewrite read_touch_data.
  destruct (i2c_read_failure CST816S_ADDRESS 0x01 data_raw 6 (hw s) Hack)
    as [E _].
  now rewrite E.
Qed.

(** The version fields survive every poll. *)
Lemma available_keeps_version (data_raw : list Z) s :
  version (data (snd (available data_raw s))) = version (data s) /\
  versionInfo (data (snd (available data_raw s))) = versionInfo (data s).
Proof.
  unfold available. destruct (_event_available s); [| now split].
  cbn [snd].
  change (data (with_event_available false (read_touch data_raw s)))
    with (data (read_touch data_raw s)).
  now rewrite read_touch_data.
Qed.

(** C7.  [set_auto_sleep_time] puts one transaction on the bus: the
    register address 0xF9 followed by the single byte min(max(s, 1), 255).
    For 0 the byte is 1, for 300 it is 255. *)
Theorem set_auto_sleep_time_clamps s (seconds : Z) :
  trace (hw (set_auto_sleep_time seconds s)) =
  trace (hw s) ++ [CallBeginTransmission (to_u8 CST816S_ADDRESS);
                   CallWrite 0xF9;
                   CallWrite (Z.min (Z.max seconds 1) 255);
                   CallEndTransmission true]
  /\ trace (hw (set_auto_sleep_time 0 s)) =
     trace (hw s) ++ [CallBeginTransmission (to_u8 CST816S_ADDRESS);
                      CallWrite 0xF9; CallWrite 1; CallEndTransmission true]
  /\ trace (hw (set_auto_sleep_time 300 s)) =
     trace (hw s) ++ [CallBeginTransmission (to_u8 CST816S_ADDRESS);
                      CallWrite 0xF9; CallWrite 255;
                      CallEndTransmission true].
Proof.
  assert (G : forall v,
             trace (hw (set_auto_sleep_time v s)) =
             trace (hw s) ++ [CallBeginTransmission (to_u8 CST816S_ADDRESS);
                              CallWrite 0xF9;
                              CallWrite (Z.min (Z.max v 1) 255);
                              CallEndTransmission true]).
  { intros v. unfold set_auto_sleep_time, on_board.
    match goal with
    | |- context [i2c_write ?a ?r [?w] 1 ?b] =>
        pose proof (i2c_write_one_byte a r w b) as T;
        destruct (i2c_write a r [w] 1 b) as [st b']
    end.
    cbn [snd hw with_hw] in *. rewrite T.
    replace (to_u8 (if v <? 1 then 1 else if v >? 255 then 255 else v))
      with (Z.min (Z.max v 1) 255); [reflexivity |].
    destruct (Z.ltb_spec v 1) as [L | L].
    - rewrite Z.max_r, Z.min_l by lia. reflexivity.
    - rewrite Z.gtb_ltb. destruct (Z.ltb_spec 255 v) as [M | M].
      + rewrite Z.max_l, Z.min_r by lia. reflexivity.
      + rewrite Z.max_l, Z.min_l by lia.
        symmetry. apply to_u8_small. unfold is_u8. lia. }
  split; [apply G | split; apply G].
Qed.

(** [set_auto_sleep_time] touches nothing but the board. *)
Lemma set_auto_sleep_time_frame s (seconds : Z) :
  set_auto_sleep_time seconds s =
  with_hw (hw (set_auto_sleep_time seconds s)) s.
Proof.
  unfold set_auto_sleep_time, on_board.
  match goal with
  | |- context [i2c_write ?a ?r ?w 1 ?b] =>
      destruct (i2c_write a r w 1 b) as [st b']
  end.
  reflexivity.
Qed.

End Failure.

(** C8, the code at the failing input.  The driver holds an earlier reading
    (gesture 5, one point, event 2, x = 120, y = 100), an interrupt is
    pending, and the chip does not acknowledge the poll's read.  [i2c_read]
    returns 255 and leaves the local array as it was, here all zero; the poll
    answers true and stores what that array decodes to, so five of the seven
    fields no longer hold the earlier reading. *)
Theorem failed_poll_overwrites_snapshot :
  let s := sample_driver board_silent 0 true in
  let r := available (hdr := sample_header) zero_stack s in
  fst (i2c_read 0x15 0x01 zero_stack 6 (hw s)) = (255, zero_stack) /\
  fst r = true /\
  data s = mkData 5 1 2 120 100 0xB4 [0xB4; 0x00; 0x01] /\
  data (snd r) = mkData 0 0 0 0 0 0xB4 [0xB4; 0x00; 0x01] /\
  data (snd r) <> data s.
Proof. vm_compute. repeat split; discriminate. Qed.

(** ** The availability flag *)

Section Availability.

Context {hdr : CST816S_h}.
Variable World : Type.
Implicit Type s : CST816S World.
Implicit Type u : World.

Lemma handleISR_sets_flag s u :
  fst (handleISR (s, u)) = with_event_available true s.
Proof.
  unfold handleISR. cbn [fst snd].
  now destruct (userISR (with_event_available true s)).
Qed.

Lemma with_event_available_twice (f g : bool) s :
  with_event_available f (with_event_available g s) =
  with_event_available f s.
Proof. reflexivity. Qed.

(** Any burst of at least one interrupt leaves the driver as a single
    interrupt does. *)
Lemma interrupts_collapse (n : nat) s u :
  fst (interrupts (S n) (s, u)) = with_event_available true s.
Proof.
  revert s u. induction n as [| m IH]; intros s u.
  - cbn [interrupts]. apply handleISR_sets_flag.
  - change (interrupts (S (S m)) (s, u))
      with (interrupts (S m) (handleISR (s, u))).
    pose proof (handleISR_sets_flag s u) as E.
    destruct (handleISR (s, u)) as [s1 u1]. cbn [fst] in E.
    rewrite IH, E. apply with_event_available_twice.
Qed.

Lemma available_answer (data_raw : list Z) s :
  fst (available data_raw s) = _event_available s /\
  _event_available (snd (available data_raw s)) = false.
Proof.
  unfold available. destruct (_event_available s) eqn:E; cbn; auto.
Qed.

(** Polling an idle driver answers false every time and changes nothing. *)
Lemma polls_idle (stacks : list (list Z)) s :
  _event_available s = false ->
  polls stacks s = (repeat false (List.length stacks), s).
Proof.
  intros Hf. induction stacks as [| data_raw rest IH]; cbn [polls].
  - reflexivity.
  - rewrite (available_idle World data_raw s Hf), IH. reflexivity.
Qed.

(** Polling a driver with a pending interrupt answers true once. *)
Lemma polls_pending (data_raw : list Z) (rest : list (list Z)) s :
  _event_available s = true ->
  fst (polls (data_raw :: rest) s) = true :: repeat false (List.length rest).
Proof.
  intros Hf. cbn [polls].
  rewrite (available_pending World data_raw s Hf).
  rewrite polls_idle by reflexivity. reflexivity.
Qed.

Lemma count_true_repeat_false (n : nat) :
  count_occ bool_dec (repeat false n) true = 0%nat.
Proof. induction n as [| m IH]; cbn; auto. Qed.

(** C2.  The flag is a single-slot mailbox.  An interrupt sets it; a burst
    of interrupts leaves the driver exactly as one interrupt does; a poll
    answers true exactly when the flag was set and leaves it cleared; and
    after a burst of n >= 1 interrupts, of any run of polls the first answers
    true and all later ones answer false, so exactly one answers true. *)
Theorem availability_single_slot s u :
  _event_available (fst (handleISR (s, u))) = true /\
  (forall n, (1 <= n)%nat ->
     fst (interrupts n (s, u)) = fst (handleISR (s, u)) /\
     _event_available (fst (interrupts n (s, u))) = true) /\
  (forall data_raw,
     fst (available data_raw s) = _event_available s /\
     _event_available (snd (available data_raw s)) = false) /\
  (forall n stacks, (1 <= n)%nat -> stacks <> [] ->
     let answers := fst (polls stacks (fst (interrupts n (s, u)))) in
     answers = true :: repeat false (List.length stacks - 1) /\
     count_occ bool_dec answers true = 1%nat).
Proof.
  split; [| split; [| split]].
  - now rewrite handleISR_sets_flag.
  - intros [| m] Hn; [lia |].
    rewrite interrupts_collapse, handleISR_sets_flag. now split.
  - intros data_raw. apply available_answer.
  - intros [| m] stacks Hn Hs answers; [lia |].
    destruct stacks as [| data_raw rest]; [contradiction |].
    assert (E : answers = true :: repeat false (List.length rest)).
    { subst answers. rewrite interrupts_collapse.
      now apply polls_pending. }
    cbn [List.length]. rewrite Nat.sub_succ, Nat.sub_0_r.
    split; [exact E |].
    rewrite E. cbn [count_occ].
    destruct (bool_dec true true) as [_ | N]; [| contradiction].
    now rewrite count_true_repeat_false.
Qed.

(** C10.  With the flag clear, [available] answers false and returns the
    driver as it was: no call reaches the board, and the seven fields of the
    snapshot and the flag are unchanged. *)
Theorem available_idle_is_noop s (data_raw : list Z) :
  _event_available s = false ->
  let r := available data_raw s in
  fst r = false /\
  snd r = s /\
  trace (hw (snd r)) = trace (hw s) /\
  gestureID (data (snd r)) = gestureID (data s) /\
  points (data (snd r)) = points (data s) /\
  event (data (snd r)) = event (data s) /\
  x (data (snd r)) = x (data s) /\
  y (data (snd r)) = y (data s) /\
  version (data (snd r)) = version (data s) /\
  versionInfo (data (snd r)) = versionInfo (data s) /\
  _event_available (snd r) = false.
Proof.
  intros Hf r. subst r. rewrite (available_idle World data_raw s Hf).
  cbn [fst snd]. repeat split; auto.
Qed.

End Availability.

(** ** The statements at concrete inputs *)

Lemma fixture_block_is_u8 : Forall is_u8 fixture_block.
Proof. unfold fixture_block, is_u8. repeat constructor; lia. Defined.

Lemma zero_stack_is_u8 : Forall is_u8 zero_stack.
Proof. unfold zero_stack, is_u8. repeat constructor; lia. Defined.

(** The fixture block polled with rotation 0. *)
Lemma read_touch_decodes_block_fixture :
  let s := sample_driver (board_answering fixture_block) 0 true in
  let d := data (snd (available (hdr := sample_header) zero_stack s)) in
  _event_available s = true /\ next_ack (hw s) = 0 /\
  next_reply (hw s) = fixture_block /\
  gestureID d = 2 /\ points d = 1 /\ event d = 0 /\ x d = 80 /\ y d = 16.
Proof.
  intros s d.
  split; [reflexivity | split; [reflexivity | split; [reflexivity |]]].
  apply (read_touch_decodes_block (hdr := sample_header) unit s zero_stack
           0x02 0x01 0x30 0x50 0x20 0x10
           eq_refl eq_refl eq_refl fixture_block_is_u8 eq_refl);
    reflexivity.
Defined.

(** Three interrupts, then two polls. *)
Lemma availability_single_slot_burst :
  let s := sample_driver (board_answering fixture_block) 0 false in
  (1 <= 3)%nat /\ [zero_stack; zero_stack] <> [] /\
  fst (polls (hdr := sample_header) [zero_stack; zero_stack]
         (fst (interrupts 3 (s, tt)))) = [true; false].
Proof.
  intros s.
  assert (H3 : (1 <= 3)%nat) by lia.
  assert (Hs : [zero_stack; zero_stack] <> []) by discriminate.
  split; [exact H3 | split; [exact Hs |]].
  exact (proj1 (proj2 (proj2 (proj2
           (availability_single_slot (hdr := sample_header) unit s tt)))
           3%nat [zero_stack; zero_stack] H3 Hs)).
Defined.

(** Rotation 1 on the swipe 2, rotation 0 and a click. *)
Lemma rotateGesture_permutes_swipes_sample :
  let s0 := sample_driver board_silent 0 false in
  let s1 := sample_driver board_silent 1 false in
  _rotation s0 = 0 /\ rotateGesture s0 3 = 3 /\
  ~ (1 <= 5 <= 4) /\ rotateGesture s1 5 = 5 /\
  1 <= _rotation s1 <= 3 /\ 1 <= 2 <= 4 /\
  1 <= rotateGesture s1 2 <= 4.
Proof.
  intros s0 s1.
  assert (H5 : ~ (1 <= 5 <= 4)) by lia.
  assert (Hr : 1 <= _rotation s1 <= 3) by (cbn; lia).
  assert (H2 : 1 <= 2 <= 4) by lia.
  split; [reflexivity |].
  split; [exact (proj1 (rotateGesture_permutes_swipes unit s0) eq_refl 3) |].
  split; [exact H5 |].
  split;
    [exact (proj1 (proj2 (rotateGesture_permutes_swipes unit s1)) 5 H5) |].
  split; [exact Hr | split; [exact H2 |]].
  exact (proj1 (proj2 (proj2 (rotateGesture_permutes_swipes unit s1)) Hr)
           2 H2).
Defined.

(** The point (10, 20) on a 240 x 280 panel and on a square one. *)
Lemma rotatePoint_inverse_turns_sample :
  let s := sample_driver board_silent 0 false in
  let turned r w h := setRotation r (setSize w h s) in
  is_int 10 /\ is_int 20 /\
  rotatePoint (turned 2 240 280) (rotatePoint (turned 2 240 280) (10, 20))
  = (10, 20) /\
  rotatePoint (turned 3 280 240) (rotatePoint (turned 1 240 280) (10, 20))
  = (10, 20) /\
  rotatePoint (turned 1 280 240) (rotatePoint (turned 3 240 280) (10, 20))
  = (10, 20) /\
  rotatePoint (turned 3 240 240) (rotatePoint (turned 1 240 240) (10, 20))
  = (10, 20) /\
  rotatePoint (turned 1 240 280) (10, 20) = (20, 240 - 1 - 10) /\
  rotatePoint (turned 3 240 280) (10, 20) = (280 - 1 - 20, 10).
Proof.
  intros s turned.
  assert (Hx : is_int 10) by (unfold is_int; lia).
  assert (Hy : is_int 20) by (unfold is_int; lia).
  assert (Px : 0 <= 10) by lia.
  assert (Py : 0 <= 20) by lia.
  assert (HW : 0 <= 240 < 2147483648) by lia.
  assert (HH : 0 <= 280 < 2147483648) by lia.
  split; [exact Hx | split; [exact Hy |]].
  pose proof (rotatePoint_inverse_turns unit s 240 280 10 20 Hx Hy)
    as (T2 & T13 & T31 & _ & F).
  pose proof (rotatePoint_inverse_turns unit s 240 240 10 20 Hx Hy)
    as (_ & _ & _ & Q & _).
  destruct (F Px Py HW HH) as (_ & F1 & _ & F3).
  exact (conj T2 (conj T13 (conj T31
           (conj (proj1 (Q eq_refl)) (conj F1 F3))))).
Defined.

(** The fixture block polled on the 240 x 240 panel, with rotation 1 and
    with rotation 0. *)
Lemma polled_point_bound_sample :
  let s := sample_driver (board_answering fixture_block) 1 true in
  let s0 := sample_driver (board_answering fixture_block) 0 true in
  let d := data (snd (available (hdr := sample_header) zero_stack s)) in
  let d0 := data (snd (available (hdr := sample_header) zero_stack s0)) in
  _event_available s = true /\
  0 <= _width s <= 4096 /\ 0 <= _height s <= 4096 /\
  (x d <= 4095 /\ y d <= 4095) /\
  ~ (1 <= _rotation s0 <= 3) /\
  (0 <= x d0 <= 4095 /\ 0 <= y d0 <= 4095).
Proof.
  intros s s0 d d0.
  assert (Hw : 0 <= _width s <= 4096) by (cbn; lia).
  assert (Hh : 0 <= _height s <= 4096) by (cbn; lia).
  assert (Hr : ~ (1 <= _rotation s0 <= 3)) by (cbn; lia).
  split; [reflexivity | split; [exact Hw | split; [exact Hh |]]].
  split.
  - exact (proj2 (proj2
             (polled_point_bound (hdr := sample_header) unit s zero_stack
                eq_refl zero_stack_is_u8)) Hw Hh).
  - split; [exact Hr |].
    exact (proj1 (proj2
             (polled_point_bound (hdr := sample_header) unit s0 zero_stack
                eq_refl zero_stack_is_u8)) Hr).
Defined.

(** The identifier 0x42 is no enumerator of the sample header. *)
Lemma gesture_name_total_sample :
  let s := with_data (mkData 0x42 1 0 80 16 0xB4 [0xB4; 0x00; 0x01])
             (sample_driver board_silent 0 false) in
  ~ In (gestureID (data s)) (gesture_codes (hdr := sample_header)) /\
  gesture (hdr := sample_header) s = "UNKNOWN"%string.
Proof.
  intros s.
  assert (Hout : ~ In (gestureID (data s))
                      (gesture_codes (hdr := sample_header)))
    by (cbn; intuition discriminate).
  split; [exact Hout |].
  exact (proj2 (gesture_name_total (hdr := sample_header) unit s) Hout).
Defined.

(** A poll with no interrupt pending. *)
Lemma available_idle_is_noop_sample :
  let s := sample_driver (board_answering fixture_block) 0 false in
  _event_available s = false /\
  available (hdr := sample_header) zero_stack s = (false, s).
Proof.
  intros s. split; [reflexivity |].
  pose proof (available_idle_is_noop (hdr := sample_header) unit s zero_stack
                eq_refl) as (A & B & _).
  destruct (available zero_stack s) as [r0 s0]. cbn [fst snd] in A, B.
  now rewrite A, B.
Defined.

(** * Further properties of the driver *)

(** ** Arrays *)

Lemma store_firstn (i : nat) (v : Z) (a : list Z) :
  (i < List.length a)%nat -> firstn (S i) (store i v a) = firstn i a ++ [v].
Proof.
  revert i. induction a as [| h t IH]; intros i Hi; cbn in Hi; [lia |].
  destruct i as [| j]; [reflexivity |].
  cbn [store]. change (firstn (S (S j)) (h :: store j v t))
    with (h :: firstn (S j) (store j v t)).
  rewrite IH by lia. reflexivity.
Qed.

Lemma store_skipn (i m : nat) (v : Z) (a : list Z) :
  skipn (S i + m) (store i v a) = skipn (S i + m) a.
Proof.
  revert i. induction a as [| h t IH]; intros i; [reflexivity |].
  destruct i as [| j]; [reflexivity |].
  cbn [store]. change (S (S j) + m)%nat with (S (S j + m)).
  cbn [skipn]. apply IH.
Qed.

Lemma skipn_at_index (i : nat) (a : list Z) :
  (i < List.length a)%nat -> skipn i a = at_index a i :: skipn (S i) a.
Proof.
  revert i. induction a as [| h t IH]; intros i Hi; cbn in Hi; [lia |].
  destruct i as [| j]; [reflexivity |].
  cbn [skipn]. unfold at_index. cbn [nth]. apply IH. lia.
Qed.

Lemma received_nil (n : nat) : received n [] = repeat 255 n.
Proof.
  unfold received. rewrite firstn_nil. cbn [map List.length app].
  now rewrite Nat.sub_0_r.
Qed.

Lemma received_cons (n : nat) (h : Z) (t : list Z) :
  received (S n) (h :: t) = to_u8 h :: received n t.
Proof. reflexivity. Qed.

Lemma received_length (n : nat) (reply : list Z) :
  List.length (received n reply) = n.
Proof.
  unfold received.
  rewrite length_app, length_map, length_firstn, repeat_length. lia.
Qed.

Lemma received_is_u8 (n : nat) (reply : list Z) :
  Forall is_u8 (received n reply).
Proof.
  unfold received. apply Forall_app. split.
  - apply Forall_map, Forall_forall. intros v _. apply to_u8_is_u8.
  - apply Forall_forall. intros v Hv. apply repeat_spec in Hv. subst v.
    unfold is_u8. lia.
Qed.

(** ** The loops of the bus transport *)

Lemma read_bytes_result (n i : nat) (reg_data : list Z) (b : Board) :
  (i + n <= List.length reg_data)%nat ->
  read_bytes n i reg_data b =
  (firstn i reg_data ++ received n (rx b) ++ skipn (i + n) reg_data,
   mkBoard (trace b ++ repeat CallRead n) (acks b) (replies b)
           (skipn n (rx b))).
Proof.
  revert i reg_data b.
  induction n as [| m IH]; intros i reg_data b Hlen.
  - destruct b as [t ak rp r]. cbn [read_bytes ret trace acks replies rx].
    rewrite Nat.add_0_r, app_nil_r. unfold received.
    cbn [firstn map repeat app skipn Nat.sub].
    now rewrite firstn_skipn.
  - cbn [read_bytes]. unfold bind, read.
    destruct b as [t ak rp r]. cbn [trace acks replies rx].
    destruct r as [| h r'].
    + rewrite IH by (rewrite store_length; lia).
      cbn [trace acks replies rx].
      rewrite store_firstn, store_skipn by lia.
      rewrite !received_nil. change (to_u8 (-1)) with 255.
      cbn [repeat skipn]. rewrite <- !app_assoc. cbn [app].
      now rewrite Nat.add_succ_r, skipn_nil.
    + rewrite IH by (rewrite store_length; lia).
      cbn [trace acks replies rx].
      rewrite store_firstn, store_skipn by lia.
      rewrite received_cons. cbn [repeat skipn].
      rewrite <- !app_assoc. cbn [app].
      now rewrite Nat.add_succ_r.
Qed.

Lemma write_bytes_result (n i : nat) (reg_data : list Z) (b : Board) :
  (i + n <= List.length reg_data)%nat ->
  write_bytes n i reg_data b =
  (tt, mkBoard (trace b ++ map CallWrite (firstn n (skipn i reg_data)))
               (acks b) (replies b) (rx b)).
Proof.
  revert i b. induction n as [| m IH]; intros i b Hlen.
  - destruct b as [t ak rp r]. cbn. now rewrite app_nil_r.
  - cbn [write_bytes]. unfold bind, write, emit.
    rewrite IH by lia. cbn [trace acks replies rx].
    rewrite (skipn_at_index i reg_data) by lia.
    cbn [firstn map]. rewrite <- app_assoc. reflexivity.
Qed.

(** ** The bus transport *)

(** The whole outcome of a register read that is not acknowledged. *)
Lemma i2c_read_nack_result (addr reg_addr : Z) (reg_data : list Z)
        (len : Z) (b : Board) :
  next_ack b <> 0 ->
  i2c_read addr reg_addr reg_data len b =
  ((255, reg_data),
   mkBoard (trace b ++ read_calls (to_u16 addr) (to_u8 reg_addr)
                         (Z.to_nat (to_u32 len)) false)
           (tl (acks b)) (replies b) (rx b)).
Proof.
  intros Hack. destruct b as [t ak rp r]. run_board.
  unfold read_calls.
  destruct ak as [| a ak']; cbn [hd] in Hack.
  - cbn. now rewrite <- !app_assoc.
  - destruct (Z.eqb_spec a 0) as [E | _]; [contradiction |].
    cbn. now rewrite <- !app_assoc.
Qed.

(** The whole outcome of a register read that is acknowledged. *)
Lemma i2c_read_ack_result (addr reg_addr : Z) (reg_data : list Z)
        (len : Z) (b : Board) :
  let n := Z.to_nat (to_u32 len) in
  next_ack b = 0 ->
  (n <= List.length reg_data)%nat ->
  i2c_read addr reg_addr reg_data len b =
  ((0, received n (next_reply b) ++ skipn n reg_data),
   mkBoard (trace b ++ read_calls (to_u16 addr) (to_u8 reg_addr) n true)
           (tl (acks b)) (tl (replies b)) []).
Proof.
  intros n Hack Hlen. destruct b as [t ak rp r]. run_board.
  destruct ak as [| a ak']; cbn [hd] in Hack; [discriminate Hack |]. subst a.
  cbn [Z.eqb negb tl].
  assert (En : Z.of_nat n = to_u32 len).
  { subst n. apply Z2Nat.id. unfold to_u32.
    apply Z.mod_pos_bound. lia. }
  fold n. unfold read_calls. rewrite En.
  destruct rp as [| rep rp']; cbn [hd tl trace acks replies rx].
  - rewrite read_bytes_result by (cbn; lia).
    cbn [trace acks replies rx firstn app skipn Nat.add].
    rewrite skipn_nil, <- !app_assoc. reflexivity.
  - rewrite read_bytes_result by (cbn; lia).
    cbn [trace acks replies rx firstn app skipn Nat.add].
    replace (received n (firstn n rep)) with (received n rep).
    + rewrite skipn_firstn_comm, Nat.sub_diag, firstn_O, <- !app_assoc.
      reflexivity.
    + unfold received. rewrite firstn_firstn, Nat.min_id, length_firstn.
      f_equal. f_equal. lia.
Qed.

(** The whole outcome of a register write. *)
Lemma i2c_write_result (addr reg_addr : Z) (reg_data : list Z)
        (len : Z) (b : Board) :
  let n := Z.to_nat (to_u32 len) in
  (n <= List.length reg_data)%nat ->
  i2c_write addr reg_addr reg_data len b =
  (if next_ack b =? 0 then 0 else 255,
   mkBoard (trace b ++ write_calls (to_u8 addr) (to_u8 reg_addr)
                         (firstn n reg_data))
           (tl (acks b)) (replies b) (rx b)).
Proof.
  intros n Hlen. destruct b as [t ak rp r]. run_board. fold n.
  rewrite write_bytes_result by (cbn; lia).
  cbn [trace acks replies rx skipn]. unfold write_calls.
  destruct ak as [| a ak']; cbn [hd tl].
  - cbn [Z.eqb negb]. change (to_u8 (-1)) with 255.
    now rewrite <- !app_assoc.
  - destruct (a =? 0); cbn [negb]; change (to_u8 (-1)) with 255;
      now rewrite <- !app_assoc.
Qed.

(** Both outcomes of a register read at once. *)
Lemma i2c_read_result (addr reg_addr : Z) (reg_data : list Z) (len : Z)
      (b : Board) :
  let n := Z.to_nat (to_u32 len) in
  (n <= List.length reg_data)%nat ->
  i2c_read addr reg_addr reg_data len b =
  if next_ack b =? 0
  then ((0, received n (next_reply b) ++ skipn n reg_data),
        mkBoard (trace b ++ read_calls (to_u16 addr) (to_u8 reg_addr) n true)
                (tl (acks b)) (tl (replies b)) [])
  else ((255, reg_data),
        mkBoard (trace b ++ read_calls (to_u16 addr) (to_u8 reg_addr) n false)
                (tl (acks b)) (replies b) (rx b)).
Proof.
  intros n Hlen. destruct (Z.eqb_spec (next_ack b) 0) as [E | E].
  - now apply i2c_read_ack_result.
  - now apply i2c_read_nack_result.
Qed.

(** X1.  A register read that the chip does not acknowledge returns 255,
    hands back the destination array as it was, and makes the three calls of
    the address phase and nothing more: no byte is requested or read, and
    the chip's pending replies and the receive buffer stay as they were. *)
Theorem i2c_read_unacknowledged (addr reg_addr : Z) (reg_data : list Z)
        (len : Z) (b : Board) :
  next_ack b <> 0 ->
  let r := i2c_read addr reg_addr reg_data len b in
  fst r = (255, reg_data) /\
  trace (snd r) =
  trace b ++ [CallBeginTransmission (to_u16 addr); CallWrite (to_u8 reg_addr);
              CallEndTransmission true] /\
  replies (snd r) = replies b /\
  rx (snd r) = rx b.
Proof.
  intros Hack r. subst r.
  rewrite (i2c_read_nack_result addr reg_addr reg_data len b Hack).
  cbn [fst snd trace replies rx]. unfold read_calls.
  rewrite app_nil_r. auto.
Qed.

(** X2.  A register read that is acknowledged returns 0 and fills the first
    [len] cells of the destination array with the bytes the chip sent,
    reduced to bytes, and with 255 for every byte the chip did not send; the
    cells from [len] on keep their values, the array keeps its length, the
    bus sees one request for [len] bytes followed by [len] reads, and the
    receive buffer ends empty. *)
Theorem i2c_read_acknowledged (addr reg_addr : Z) (reg_data : list Z)
        (len : Z) (b : Board) :
  let n := Z.to_nat (to_u32 len) in
  next_ack b = 0 ->
  (n <= List.length reg_data)%nat ->
  let r := i2c_read addr reg_addr reg_data len b in
  fst r = (0, received n (next_reply b) ++ skipn n reg_data) /\
  List.length (snd (fst r)) = List.length reg_data /\
  trace (snd r) =
  trace b ++ [CallBeginTransmission (to_u16 addr); CallWrite (to_u8 reg_addr);
              CallEndTransmission true;
              CallRequestFrom (to_u16 addr) (Z.of_nat n) true]
          ++ repeat CallRead n /\
  rx (snd r) = [].
Proof.
  intros n Hack Hlen r. subst r.
  rewrite (i2c_read_ack_result addr reg_addr reg_data len b Hack Hlen).
  cbn [fst snd trace rx]. fold n.
  split; [reflexivity | split; [| split; reflexivity]].
  rewrite length_app, received_length, length_skipn. lia.
Qed.

(** X3.  A register write puts the register address and then the first
    [len] bytes of the payload, in order, on the bus in one transmission;
    it returns 0 when the chip acknowledges and 255 when it does not, and it
    requests and receives nothing. *)
Theorem i2c_write_transaction (addr reg_addr : Z) (reg_data : list Z)
        (len : Z) (b : Board) :
  let n := Z.to_nat (to_u32 len) in
  (n <= List.length reg_data)%nat ->
  let r := i2c_write addr reg_addr reg_data len b in
  fst r = (if next_ack b =? 0 then 0 else 255) /\
  trace (snd r) =
  trace b ++ [CallBeginTransmission (to_u8 addr); CallWrite (to_u8 reg_addr)]
          ++ map CallWrite (firstn n reg_data)
          ++ [CallEndTransmission true] /\
  replies (snd r) = replies b /\
  rx (snd r) = rx b.
Proof.
  intros n Hlen r. subst r.
  rewrite (i2c_write_result addr reg_addr reg_data len b Hlen).
  cbn [fst snd trace replies rx]. auto.
Qed.

(** ** Configuration commands *)

Section Commands.

Context {hdr : CST816S_h}.
Variable World : Type.
Implicit Type s : CST816S World.

(** A one-byte write to a register, run on the driver's board. *)
Lemma write_register_on_board s (reg_addr v : Z) :
  snd (on_board (i2c_write CST816S_ADDRESS reg_addr [v] 1) s) =
  with_hw (mkBoard (trace (hw s)
                    ++ write_calls (to_u8 CST816S_ADDRESS) (to_u8 reg_addr)
                         [v])
                   (tl (acks (hw s))) (replies (hw s)) (rx (hw s))) s.
Proof.
  unfold on_board.
  rewrite (i2c_write_result CST816S_ADDRESS reg_addr [v] 1 (hw s))
    by (cbn; lia).
  reflexivity.
Qed.

(** X4.  [enable_double_click], [disable_auto_sleep] and
    [enable_auto_sleep] each put one write transaction on the bus: the byte
    0x01 to register 0xEC, the byte 0xFE to register 0xFE, the byte 0x00 to
    register 0xFE.  Whether or not the chip acknowledges, nothing of the
    driver but the board changes: the snapshot, the flag, the rotation, the
    size and the callback stay as they were. *)
Theorem configuration_commands_write_one_byte s :
  let wrote (s' : CST816S World) (reg_addr v : Z) :=
    s' = with_hw (hw s') s /\
    trace (hw s') =
    trace (hw s) ++ write_calls (to_u8 CST816S_ADDRESS) reg_addr [v] /\
    replies (hw s') = replies (hw s) /\ rx (hw s') = rx (hw s) in
  wrote (enable_double_click s) 0xEC 0x01 /\
  wrote (disable_auto_sleep s) 0xFE 0xFE /\
  wrote (enable_auto_sleep s) 0xFE 0x00.
Proof.
  intros wrote. subst wrote. cbv beta.
  unfold enable_double_click, disable_auto_sleep, enable_auto_sleep.
  cbv zeta. rewrite !write_register_on_board.
  repeat split.
Qed.

(** X5.  [sleep] pulses the reset pin (low, 5 ms, high, 50 ms) and only
    then writes the byte 0x03 to register 0xA5; nothing of the driver but
    the board changes. *)
Theorem sleep_resets_then_writes_standby s :
  sleep s = with_hw (hw (sleep s)) s /\
  trace (hw (sleep s)) =
  trace (hw s) ++ reset_pulse (_rst s)
               ++ write_calls (to_u8 CST816S_ADDRESS) 0xA5 [0x03] /\
  replies (hw (sleep s)) = replies (hw s) /\
  rx (hw (sleep s)) = rx (hw s).
Proof.
  destruct s as [b sda scl rst irq rot w h f cb d].
  destruct b as [t ak rp r].
  unfold sleep, on_board, bind, digitalWrite, delay, emit.
  cbn [hw with_hw trace acks replies rx _rst _sda _scl _irq _rotation _width
          _height _event_available userISR data].
  rewrite i2c_write_result by (cbn; lia).
  cbn [snd hw with_hw trace acks replies rx _rst _sda _scl _irq _rotation
           _width _height _event_available userISR data].
  unfold reset_pulse, write_calls. rewrite <- !app_assoc.
  repeat split.
Qed.

End Commands.

(** ** Initialisation *)

Section Begin.

Context {hdr : CST816S_h}.
Variable World : Type.
Implicit Type s : CST816S World.

(** The first cell of a one-byte read. *)
Lemma at_index_received_first (reply rest : list Z) :
  at_index (received 1 reply ++ rest) 0 = at_index (received 1 reply) 0.
Proof. destruct reply as [| h t]; reflexivity. Qed.

Ltac run_driver :=
  cbv [bind ret wire_begin pinMode digitalWrite delay attachInterrupt emit
       on_board hw with_hw with_data trace acks replies rx
       _sda _scl _rst _irq _rotation _width _height _event_available
       userISR data gestureID points event x y version versionInfo
       next_ack next_reply fst snd].

(** Everything [begin] does, in terms of the two acknowledgements. *)
Lemma begin_eq (interrupt : Z) (t : list HwCall) (ak : list Z)
      (rp : list (list Z)) (r : list Z) (sda scl rst irq rot w h : Z)
      (f : bool) (cb : option (World -> World)) (g n e px py v : Z)
      (vi : list Z) :
  (3 <= List.length vi)%nat ->
  let ack1 := hd 2 ak =? 0 in
  let ack2 := hd 2 (tl ak) =? 0 in
  let rp1 := if ack1 then tl rp else rp in
  begin interrupt
    (mkDriver (mkBoard t ak rp r) sda scl rst irq rot w h f cb
              (mkData g n e px py v vi)) =
  mkDriver
    (mkBoard (t ++ begin_prologue sda scl rst irq
                ++ read_calls (to_u16 CST816S_ADDRESS) 0x15 1 ack1
                ++ [CallDelay 5]
                ++ read_calls (to_u16 CST816S_ADDRESS) 0xA7 3 ack2
                ++ [CallAttachInterrupt irq interrupt])
             (tl (tl ak))
             (if ack2 then tl rp1 else rp1)
             (if ack2 then [] else if ack1 then [] else r))
    sda scl rst irq rot w h f cb
    (mkData g n e px py
            (if ack1 then at_index (received 1 (hd [] rp)) 0 else v)
            (if ack2 then received 3 (hd [] rp1) ++ skipn 3 vi else vi)).
Proof.
  intros Hlen ack1 ack2 rp1. subst ack1 ack2 rp1.
  unfold begin. run_driver.
  rewrite (i2c_read_result CST816S_ADDRESS 0x15 [v] 1)
    by (change (Z.to_nat (to_u32 1)) with 1%nat; cbn; lia).
  change (Z.to_nat (to_u32 1)) with 1%nat.
  change (to_u8 21) with 21.
  run_driver.
  destruct (hd 2 ak =? 0).
  - rewrite (i2c_read_result CST816S_ADDRESS 0xA7 vi 3)
      by (change (Z.to_nat (to_u32 3)) with 3%nat; lia).
    change (Z.to_nat (to_u32 3)) with 3%nat.
    change (to_u8 167) with 167.
    run_driver. rewrite at_index_received_first.
    destruct (hd 2 (tl ak) =? 0); unfold begin_prologue;
      rewrite <- !app_assoc; cbn [app]; reflexivity.
  - rewrite (i2c_read_result CST816S_ADDRESS 0xA7 vi 3)
      by (change (Z.to_nat (to_u32 3)) with 3%nat; lia).
    change (Z.to_nat (to_u32 3)) with 3%nat.
    change (to_u8 167) with 167.
    run_driver.
    destruct (hd 2 (tl ak) =? 0); unfold begin_prologue;
      rewrite <- !app_assoc; cbn [app]; reflexivity.
Qed.

End Begin.

Section BeginProperties.

Context {hdr : CST816S_h}.
Variable World : Type.
Implicit Type s : CST816S World.

(** X6.  [begin] makes its calls in a fixed order: the bus is started at
    400 kHz, the interrupt pin becomes an input and the reset pin an output,
    the reset pin goes high, low and high again with waits of 50, 5 and 50
    ms, register 0x15 is read (one byte), 5 ms pass, register 0xA7 is read
    (three bytes), and the interrupt handler is attached last.  A read that
    is not acknowledged stops after its address phase; the calls after it
    are made all the same. *)
Theorem begin_call_order s (interrupt : Z) :
  (3 <= List.length (versionInfo (data s)))%nat ->
  let ack1 := next_ack (hw s) =? 0 in
  let ack2 := hd 2 (tl (acks (hw s))) =? 0 in
  trace (hw (begin interrupt s)) =
  trace (hw s) ++ begin_prologue (_sda s) (_scl s) (_rst s) (_irq s)
               ++ read_calls (to_u16 CST816S_ADDRESS) 0x15 1 ack1
               ++ [CallDelay 5]
               ++ read_calls (to_u16 CST816S_ADDRESS) 0xA7 3 ack2
               ++ [CallAttachInterrupt (_irq s) interrupt].
Proof.
  destruct s as [b sda scl rst irq rot w h f cb d].
  destruct b as [t ak rp r]. destruct d as [g n e px py v vi].
  cbv beta iota delta [data versionInfo hw acks]. intros Hlen ack1 ack2.
  rewrite (begin_eq World interrupt t ak rp r sda scl rst irq rot w h f cb
             g n e px py v vi Hlen).
  reflexivity.
Qed.

(** X7.  [begin] stores in [version] the byte read from register 0x15 and
    in [versionInfo] the three bytes read from register 0xA7, with 255 for
    each byte the chip did not send; a read that is not acknowledged leaves
    its field as it was.  The touch fields of the snapshot, the flag, the
    rotation, the size, the pins and the callback are never changed. *)
Theorem begin_reads_version s (interrupt : Z) :
  List.length (versionInfo (data s)) = 3%nat ->
  let b := hw s in
  let d := data s in
  let ack1 := next_ack b =? 0 in
  let ack2 := hd 2 (tl (acks b)) =? 0 in
  let replies1 := if ack1 then tl (replies b) else replies b in
  let s' := begin interrupt s in
  version (data s') =
    (if ack1 then at_index (received 1 (next_reply b)) 0 else version d) /\
  versionInfo (data s') =
    (if ack2 then received 3 (hd [] replies1) else versionInfo d) /\
  List.length (versionInfo (data s')) = 3%nat /\
  s' = with_data (mkData (gestureID d) (points d) (event d) (x d) (y d)
                         (version (data s')) (versionInfo (data s')))
         (with_hw (hw s') s).
Proof.
  destruct s as [b sda scl rst irq rot w h f cb d].
  destruct b as [t ak rp r]. destruct d as [g n e px py v vi].
  cbv beta iota
      delta [data versionInfo hw acks replies version gestureID points event
             x y].
  intros Hlen b0 d0 ack1 ack2 replies1 s'. subst b0 d0 ack1 ack2 replies1 s'.
  rewrite (begin_eq World interrupt t ak rp r sda scl rst irq rot w h f cb
             g n e px py v vi) by lia.
  cbn [data versionInfo hw version with_data with_hw].
  unfold next_ack, next_reply. cbn [acks replies].
  assert (E3 : skipn 3 vi = []) by (apply skipn_all2; lia).
  rewrite E3, app_nil_r.
  split; [reflexivity | split; [reflexivity | split; [| reflexivity]]].
  destruct (hd 2 (tl ak) =? 0); [apply received_length | exact Hlen].
Qed.

End BeginProperties.

(** ** Interrupts and the user callback *)

Section Callbacks.

Variable World : Type.
Implicit Type s : CST816S World.
Implicit Type u : World.

Lemma handleISR_world s u :
  snd (handleISR (s, u)) =
  match userISR s with Some callback => callback u | None => u end.
Proof.
  unfold handleISR. cbn [fst snd].
  change (userISR (with_event_available true s)) with (userISR s).
  now destruct (userISR s).
Qed.

Lemma iter_shift {A : Type} (f : A -> A) (n : nat) (a : A) :
  Nat.iter n f (f a) = f (Nat.iter n f a).
Proof. apply Nat.iter_swap. Qed.

Lemma interrupts_world (n : nat) s u :
  snd (interrupts n (s, u)) =
  match userISR s with
  | Some callback => Nat.iter n callback u
  | None => u
  end.
Proof.
  revert s u. induction n as [| m IH]; intros s u.
  - cbn. now destruct (userISR s).
  - cbn [interrupts].
    pose proof (handleISR_sets_flag World s u) as Es.
    pose proof (handleISR_world s u) as Eu.
    destruct (handleISR (s, u)) as [s1 u1]. cbn [fst snd] in Es, Eu.
    rewrite IH. subst s1 u1.
    change (userISR (with_event_available true s)) with (userISR s).
    destruct (userISR s) as [callback |]; [| reflexivity].
    now rewrite iter_shift.
Qed.

Lemma interrupts_driver (n : nat) s u :
  fst (interrupts n (s, u)) =
  match n with O => s | S _ => with_event_available true s end.
Proof.
  destruct n as [| m]; [reflexivity | apply interrupts_collapse].
Qed.

(** X8.  The interrupt handler runs the registered callback once per
    interrupt, and runs nothing when no callback is registered; it makes no
    call on the board and changes nothing of the driver but the flag.  The
    callback registered last is the one that runs. *)
Theorem interrupts_run_callback_once_each (n : nat) s u
        (callback : World -> World) :
  snd (interrupts n (attachUserInterrupt (Some callback) s, u)) =
    Nat.iter n callback u /\
  snd (interrupts n (attachUserInterrupt None s, u)) = u /\
  hw (fst (interrupts n (s, u))) = hw s /\
  data (fst (interrupts n (s, u))) = data s /\
  userISR (fst (interrupts n (s, u))) = userISR s /\
  _rotation (fst (interrupts n (s, u))) = _rotation s /\
  (_width (fst (interrupts n (s, u))), _height (fst (interrupts n (s, u))))
  = (_width s, _height s).
Proof.
  rewrite !interrupts_world, interrupts_driver.
  cbn [attachUserInterrupt userISR].
  destruct n; repeat split.
Qed.

End Callbacks.

(** ** Rotation setting, every argument *)

Section RotationArguments.

Variable World : Type.
Implicit Type s : CST816S World.

Lemma rem_4_cases (n : Z) :
  (0 <= n \/ n mod 4 = 0) /\ Z.rem n 4 = n mod 4 \/
  (n < 0 /\ n mod 4 <> 0) /\ Z.rem n 4 = n mod 4 - 4.
Proof.
  pose proof (Z.mod_pos_bound n 4 ltac:(lia)) as Bm.
  pose proof (Z.div_mod n 4 ltac:(lia)) as Em.
  pose proof (Z.quot_rem' n 4) as Er.
  destruct (Z.le_gt_cases 0 n) as [Hn | Hn].
  - left. split; [now left |]. apply Z.rem_mod_nonneg; lia.
  - pose proof (Z.rem_bound_pos_neg n 4 ltac:(lia) ltac:(lia)) as Br.
    destruct (Z.eq_dec (n mod 4) 0) as [E0 | E0].
    + left. split; [now right | lia].
    + right. split; [lia | lia].
Qed.

(** X9.  For every integer n, [setRotation n] stores n mod 4 exactly when n
    is not negative or is a multiple of 4.  For every other n it stores
    n mod 4 - 4, a value from -3 to -1, and the driver then rotates neither
    gestures nor points. *)
Theorem setRotation_every_argument s (n : Z) :
  (_rotation (setRotation n s) = n mod 4 <-> 0 <= n \/ n mod 4 = 0) /\
  (n < 0 -> n mod 4 <> 0 ->
   _rotation (setRotation n s) = n mod 4 - 4 /\
   -3 <= _rotation (setRotation n s) <= -1 /\
   (forall g, rotateGesture (setRotation n s) g = g) /\
   (forall p, rotatePoint (setRotation n s) p = p)).
Proof.
  rewrite setRotation_rem.
  pose proof (Z.mod_pos_bound n 4 ltac:(lia)) as Bm.
  destruct (rem_4_cases n) as [[Hc E] | [[Hneg Hnz] E]].
  - split; [tauto |]. intros Hneg Hnz. lia.
  - split.
    + split; [lia | intros [Hn | Hn]; lia].
    + intros _ _.
      assert (Hr : ~ (1 <= _rotation (setRotation n s) <= 3))
        by (rewrite setRotation_rem; lia).
      split; [exact E | split; [lia | split]].
      * intros g.
        apply (unknown_rotation_is_no_rotation World (setRotation n s) g
                 (0, 0) Hr).
      * intros p.
        apply (unknown_rotation_is_no_rotation World (setRotation n s) 0
                 p Hr).
Qed.

(** Turning by a then by b quarter turns, on stored rotations. *)
Lemma rotateGesture_compose_stored (sa sb sc : CST816S World) (g : Z) :
  0 <= _rotation sa <= 3 -> 0 <= _rotation sb <= 3 ->
  _rotation sc = (_rotation sa + _rotation sb) mod 4 ->
  rotateGesture sa (rotateGesture sb g) = rotateGesture sc g.
Proof.
  intros Ha Hb Hc.
  destruct (Z.lt_ge_cases g 1) as [Hlo | Hlo].
  { rewrite (rotateGesture_not_swipe World sb g) by lia.
    rewrite (rotateGesture_not_swipe World sa g) by lia.
    now rewrite (rotateGesture_not_swipe World sc g) by lia. }
  destruct (Z.lt_ge_cases 4 g) as [Hhi | Hhi].
  { rewrite (rotateGesture_not_swipe World sb g) by lia.
    rewrite (rotateGesture_not_swipe World sa g) by lia.
    now rewrite (rotateGesture_not_swipe World sc g) by lia. }
  unfold rotateGesture at 2 3. rewrite Hc.
  assert (_rotation sb = 0 \/ _rotation sb = 1 \/ _rotation sb = 2 \/
          _rotation sb = 3) as [Eb | [Eb | [Eb | Eb]]] by lia;
    assert (_rotation sa = 0 \/ _rotation sa = 1 \/ _rotation sa = 2 \/
            _rotation sa = 3) as [Ea | [Ea | [Ea | Ea]]] by lia;
    rewrite Ea, Eb;
    assert (g = 1 \/ g = 2 \/ g = 3 \/ g = 4) as [-> | [-> | [-> | ->]]]
      by lia;
    unfold rotateGesture; rewrite Ea; reflexivity.
Qed.

(** X10.  Gesture rotation composes like quarter turns: for arguments a
    and b that are not negative, rotating a gesture under [setRotation b]
    and the result under [setRotation a] gives what [setRotation (a + b)]
    gives, for every gesture identifier.  In particular four quarter turns,
    and a turn of a followed by a turn of 4 - a, give the identifier back. *)
Theorem rotateGesture_composes (s1 s2 s3 : CST816S World) (a b g : Z) :
  0 <= a -> 0 <= b ->
  rotateGesture (setRotation a s1) (rotateGesture (setRotation b s2) g) =
  rotateGesture (setRotation (a + b) s3) g.
Proof.
  intros Ha Hb.
  destruct (setRotation_nonneg World s1 a Ha) as [Ea Ra].
  destruct (setRotation_nonneg World s2 b Hb) as [Eb Rb].
  destruct (setRotation_nonneg World s3 (a + b) ltac:(lia)) as [Ec Rc].
  apply rotateGesture_compose_stored; [exact Ra | exact Rb |].
  rewrite Ea, Eb, Ec. apply Z.add_mod. lia.
Qed.

End RotationArguments.

(** ** Points on the panel *)

Section PanelPoints.

Variable World : Type.
Implicit Type s : CST816S World.

(** X11.  A point on the panel stays on the display: for a panel of W x H
    and a point with 0 <= x < W and 0 <= y < H, rotations 1 and 3 give a
    point of the turned frame H x W, rotation 2 a point of the frame W x H,
    and any other stored rotation gives the point back. *)
Theorem rotatePoint_stays_on_panel s (px py : Z) :
  _width s < 2147483648 -> _height s < 2147483648 ->
  0 <= px < _width s -> 0 <= py < _height s ->
  let q := rotatePoint s (px, py) in
  (_rotation s = 1 \/ _rotation s = 3 ->
   0 <= fst q < _height s /\ 0 <= snd q < _width s) /\
  (_rotation s = 2 -> 0 <= fst q < _width s /\ 0 <= snd q < _height s) /\
  (~ (1 <= _rotation s <= 3) -> q = (px, py)).
Proof.
  intros Hw Hh Hx Hy q. subst q.
  assert (Ew : to_int (_width s - 1) = _width s - 1)
    by (apply to_int_small; unfold is_int; lia).
  assert (Eh : to_int (_height s - 1) = _height s - 1)
    by (apply to_int_small; unfold is_int; lia).
  assert (Ex : to_int (_width s - 1 - px) = _width s - 1 - px)
    by (apply to_int_small; unfold is_int; lia).
  assert (Ey : to_int (_height s - 1 - py) = _height s - 1 - py)
    by (apply to_int_small; unfold is_int; lia).
  split; [| split].
  - intros [E | E]; unfold rotatePoint; rewrite E; cbn [fst snd];
      rewrite ?Ew, ?Eh, ?Ex, ?Ey; lia.
  - intros E. unfold rotatePoint. rewrite E. cbn [fst snd].
    rewrite Ew, Eh, Ex, Ey. lia.
  - intros Hr. now apply rotatePoint_no_rotation.
Qed.

Lemma to_int_flip_injective (a v v' : Z) :
  is_int v -> is_int v' -> to_int (a - v) = to_int (a - v') -> v = v'.
Proof.
  intros Hv Hv' E.
  rewrite <- (to_int_flip_flip a v Hv), <- (to_int_flip_flip a v' Hv').
  now rewrite E.
Qed.

(** X12.  Under every stored rotation and every declared size,
    [rotatePoint] sends different points to different points. *)
Theorem rotatePoint_injective s (px py qx qy : Z) :
  is_int px -> is_int py -> is_int qx -> is_int qy ->
  rotatePoint s (px, py) = rotatePoint s (qx, qy) ->
  (px, py) = (qx, qy).
Proof.
  intros Hpx Hpy Hqx Hqy. unfold rotatePoint. cbn [fst snd].
  destruct (_rotation s) as [| r | r]; try (intros E; exact E).
  destruct r as [[r | r |] | [r | r |] |]; try (intros E; exact E).
  - intros E. apply pair_equal_spec in E. destruct E as [E1 E2].
    apply to_int_flip_injective in E1; [| assumption ..].
    subst. reflexivity.
  - intros E. apply pair_equal_spec in E. destruct E as [E1 E2].
    apply to_int_flip_injective in E1; [| assumption ..].
    apply to_int_flip_injective in E2; [| assumption ..].
    subst. reflexivity.
  - intros E. apply pair_equal_spec in E. destruct E as [E1 E2].
    apply to_int_flip_injective in E2; [| assumption ..].
    subst. reflexivity.
Qed.

End PanelPoints.

(** ** Polls, in general *)

Section Polls.

Context {hdr : CST816S_h}.
Variable World : Type.
Implicit Type s : CST816S World.

Lemma read_touch_hw (data_raw : list Z) s :
  hw (read_touch data_raw s) =
  snd (i2c_read CST816S_ADDRESS 0x01 data_raw 6 (hw s)).
Proof.
  unfold read_touch, on_board.
  destruct (i2c_read CST816S_ADDRESS 1 data_raw 6 (hw s)) as [[st filled] b'].
  reflexivity.
Qed.

Lemma read_touch_pins (data_raw : list Z) s :
  let s' := read_touch data_raw s in
  _sda s' = _sda s /\ _scl s' = _scl s /\ _rst s' = _rst s /\
  _irq s' = _irq s.
Proof.
  unfold read_touch, on_board.
  destruct (i2c_read CST816S_ADDRESS 1 data_raw 6 (hw s)) as [[st filled] b'].
  cbn. auto.
Qed.

(** X13.  A poll with an interrupt pending makes exactly one register read
    on the bus, of six bytes from register 0x01, and a poll with none
    pending makes no call at all.  No poll changes the pins, the rotation,
    the size, the callback or the two version fields. *)
Theorem available_bus_traffic s (data_raw : list Z) :
  (6 <= List.length data_raw)%nat ->
  let s' := snd (available data_raw s) in
  trace (hw s') =
    trace (hw s)
    ++ (if _event_available s
        then read_calls (to_u16 CST816S_ADDRESS) 0x01 6
                        (next_ack (hw s) =? 0)
        else []) /\
  (_sda s', _scl s', _rst s', _irq s') = (_sda s, _scl s, _rst s, _irq s) /\
  (_rotation s', _width s', _height s') = (_rotation s, _width s, _height s)
  /\ userISR s' = userISR s /\
  version (data s') = version (data s) /\
  versionInfo (data s') = versionInfo (data s).
Proof.
  intros Hlen s'.
  destruct (available_keeps_version World data_raw s) as [Ev Ei].
  fold s' in Ev, Ei. subst s'.
  unfold available. destruct (_event_available s) eqn:Hf; cbn [snd].
  - destruct (read_touch_frame World data_raw s) as (Fr & Fw & Fh & _ & Fu).
    destruct (read_touch_pins data_raw s) as (P1 & P2 & P3 & P4).
    unfold available in Ev, Ei. rewrite Hf in Ev, Ei. cbn [snd] in Ev, Ei.
    cbn [hw with_event_available _sda _scl _rst _irq _rotation _width
            _height userISR data] in *.
    rewrite read_touch_hw.
    rewrite (i2c_read_result CST816S_ADDRESS 0x01 data_raw 6 (hw s))
      by (change (Z.to_nat (to_u32 6)) with 6%nat; exact Hlen).
    change (Z.to_nat (to_u32 6)) with 6%nat. change (to_u8 1) with 1.
    rewrite P1, P2, P3, P4, Fr, Fw, Fh, Fu.
    destruct (next_ack (hw s) =? 0); cbn [snd trace]; repeat split; auto.
  - rewrite app_nil_r. repeat split.
Qed.

Lemma at_index_received (n i : nat) (reply rest : list Z) :
  (i < n)%nat ->
  at_index (received n reply ++ rest) i = at_index (received n reply) i.
Proof.
  intros Hi. unfold at_index. apply app_nth1.
  rewrite received_length. exact Hi.
Qed.

(** X14.  When a poll is acknowledged, the snapshot is decoded from the
    bytes the chip sent, 255 standing for each of the six that it did not
    send, and never from what the local array held before.  A chip that
    acknowledges and sends nothing therefore yields gesture 255, 255 points,
    event 3 and the rotated image of the point (4095, 4095). *)
Theorem acknowledged_poll_decodes_reply s (data_raw : list Z) :
  _event_available s = true ->
  next_ack (hw s) = 0 ->
  (6 <= List.length data_raw)%nat ->
  let block := received 6 (next_reply (hw s)) in
  let d := data (snd (available data_raw s)) in
  let raw := (Z.shiftl (Z.land (at_index block 2) 0xF) 8 + at_index block 3,
              Z.shiftl (Z.land (at_index block 4) 0xF) 8 + at_index block 5)
  in
  (gestureID d = rotateGesture s (at_index block 0) /\
   points d = at_index block 1 /\
   event d = Z.shiftr (at_index block 2) 6 /\
   (x d, y d) = rotatePoint s raw) /\
  (next_reply (hw s) = [] ->
   gestureID d = 255 /\ points d = 255 /\ event d = 3 /\
   (x d, y d) = rotatePoint s (4095, 4095)).
Proof.
  intros Hf Hack Hlen block d raw.
  assert (Hd : d = mkData (rotateGesture s (at_index block 0))
                          (at_index block 1)
                          (Z.shiftr (at_index block 2) 6)
                          (fst (rotatePoint s raw)) (snd (rotatePoint s raw))
                          (version (data s)) (versionInfo (data s))).
  { subst d. rewrite (available_pending World data_raw s Hf). cbn [snd].
    change (data (with_event_available false (read_touch data_raw s)))
      with (data (read_touch data_raw s)).
    rewrite read_touch_data.
    rewrite (i2c_read_result CST816S_ADDRESS 0x01 data_raw 6 (hw s))
      by (change (Z.to_nat (to_u32 6)) with 6%nat; exact Hlen).
    change (Z.to_nat (to_u32 6)) with 6%nat.
    rewrite Hack. cbn [Z.eqb fst snd].
    rewrite !at_index_received by lia. reflexivity. }
  split.
  - rewrite Hd. cbn [gestureID points event x y].
    repeat split. now destruct (rotatePoint s raw).
  - intros Hnone. rewrite Hd. cbn [gestureID points event x y].
    subst raw block. rewrite Hnone.
    change (received 6 []) with [255; 255; 255; 255; 255; 255].
    cbn [at_index nth].
    rewrite rotateGesture_not_swipe by lia.
    repeat split.
    change (Z.shiftl (Z.land 255 15) 8 + 255) with 4095.
    now destruct (rotatePoint s (4095, 4095)).
Qed.

Lemma rotateGesture_is_u8 s (g : Z) : is_u8 g -> is_u8 (rotateGesture s g).
Proof.
  intros Hg.
  destruct (Z.lt_ge_cases g 1) as [Hlo | Hlo];
    [rewrite rotateGesture_not_swipe by lia; exact Hg |].
  destruct (Z.lt_ge_cases 4 g) as [Hhi | Hhi];
    [rewrite rotateGesture_not_swipe by lia; exact Hg |].
  destruct (Z.lt_ge_cases (_rotation s) 1) as [Rlo | Rlo].
  { destruct (unknown_rotation_is_no_rotation World s g (0, 0)
                ltac:(lia)) as [E _].
    now rewrite E. }
  destruct (Z.lt_ge_cases 3 (_rotation s)) as [Rhi | Rhi].
  { destruct (unknown_rotation_is_no_rotation World s g (0, 0)
                ltac:(lia)) as [E _].
    now rewrite E. }
  pose proof (rotateGesture_swipe_range World s g ltac:(lia) ltac:(lia)).
  unfold is_u8. lia.
Qed.

(** X15.  After every poll with an interrupt pending, acknowledged or not,
    the stored gesture and point count are bytes and the stored event is one
    of 0, 1, 2, 3. *)
Theorem polled_fields_in_range s (data_raw : list Z) :
  _event_available s = true ->
  Forall is_u8 data_raw ->
  let d := data (snd (available data_raw s)) in
  0 <= gestureID d <= 255 /\ 0 <= points d <= 255 /\ 0 <= event d <= 3.
Proof.
  intros Hf Hraw d. subst d.
  rewrite (available_pending World data_raw s Hf). cbn [snd].
  change (data (with_event_available false (read_touch data_raw s)))
    with (data (read_touch data_raw s)).
  rewrite read_touch_data. cbn zeta. cbn [gestureID points event].
  pose proof (i2c_read_is_u8 CST816S_ADDRESS 0x01 data_raw 6 (hw s) Hraw)
    as Hfilled.
  set (filled := snd (fst (i2c_read CST816S_ADDRESS 1 data_raw 6 (hw s))))
    in *.
  pose proof (rotateGesture_is_u8 s _ (at_index_is_u8 filled 0 Hfilled))
    as G.
  pose proof (at_index_is_u8 filled 1 Hfilled) as P.
  pose proof (at_index_is_u8 filled 2 Hfilled) as E.
  unfold is_u8 in G, P, E.
  split; [lia | split; [lia |]].
  rewrite Z.shiftr_div_pow2 by lia. change (2 ^ 6) with 64.
  split; [apply Z.div_pos; lia |].
  assert (at_index filled 2 / 64 < 4)
    by (apply Z.div_lt_upper_bound; lia).
  lia.
Qed.

End Polls.

(** ** Runs of interrupts and polls *)

Section RunProperties.

Context {hdr : CST816S_h}.
Variable World : Type.
Implicit Type s : CST816S World.
Implicit Type u : World.

(** X16.  When the read of a poll is not acknowledged, the poll still
    answers true and clears the flag, and the five touch fields are decoded
    from the contents the local array happened to have; the two version
    fields are kept. *)
Theorem unacknowledged_poll_decodes_stack s (data_raw : list Z) :
  _event_available s = true ->
  next_ack (hw s) <> 0 ->
  let r := available data_raw s in
  let d := data (snd r) in
  let raw := (Z.shiftl (Z.land (at_index data_raw 2) 0xF) 8
              + at_index data_raw 3,
              Z.shiftl (Z.land (at_index data_raw 4) 0xF) 8
              + at_index data_raw 5) in
  fst r = true /\ _event_available (snd r) = false /\
  gestureID d = rotateGesture s (at_index data_raw 0) /\
  points d = at_index data_raw 1 /\
  event d = Z.shiftr (at_index data_raw 2) 6 /\
  (x d, y d) = rotatePoint s raw /\
  version d = version (data s) /\ versionInfo d = versionInfo (data s).
Proof.
  intros Hf Hack r d raw. subst d r.
  rewrite (available_pending World data_raw s Hf). cbn [fst snd].
  change (data (with_event_available false (read_touch data_raw s)))
    with (data (read_touch data_raw s)).
  rewrite (read_touch_after_failure World data_raw s Hack).
  cbn [gestureID points event x y version versionInfo]. fold raw.
  repeat split. now destruct (rotatePoint s raw).
Qed.

Lemma run_edge (rest : list Stimulus) s u :
  run (Edge :: rest) (s, u) = run rest (handleISR (s, u)).
Proof. reflexivity. Qed.

Lemma run_poll (data_raw : list Z) (rest : list Stimulus) s u :
  run (Poll data_raw :: rest) (s, u) =
  (fst (available data_raw s)
     :: fst (run rest (snd (available data_raw s), u)),
   snd (run rest (snd (available data_raw s), u))).
Proof.
  cbn [run fst snd]. destruct (available data_raw s) as [r s1].
  cbn [fst snd]. now destruct (run rest (s1, u)).
Qed.

Lemma reported_bound (events : list Stimulus) s u :
  (reported (fst (run events (s, u)))
   <= (if _event_available s then 1 else 0) + edges events)%nat.
Proof.
  revert s u. induction events as [| e rest IH]; intros s u.
  - cbn. lia.
  - destruct e as [| data_raw].
    + rewrite run_edge. cbn [edges].
      pose proof (handleISR_sets_flag World s u) as E.
      destruct (handleISR (s, u)) as [s1 u1]. cbn [fst] in E.
      specialize (IH s1 u1). rewrite E in IH. rewrite E.
      cbn [_event_available with_event_available] in IH.
      destruct (_event_available s); lia.
    + rewrite run_poll. cbn [fst edges].
      destruct (available_answer World data_raw s) as [Ea Ef].
      specialize (IH (snd (available data_raw s)) u).
      rewrite Ef in IH. rewrite Ea.
      unfold reported in *. cbn [count_occ].
      destruct (_event_available s).
      * destruct (bool_dec true true) as [_ | N]; [lia | contradiction].
      * destruct (bool_dec false true) as [N | _]; [discriminate | lia].
Qed.

(** X17.  However interrupts and polls are interleaved, the polls that
    answer true are no more than the interrupts, plus one if an interrupt
    was pending at the start; and a poll that directly follows an interrupt
    always answers true. *)
Theorem polls_report_at_most_the_interrupts (events : list Stimulus) s u :
  (reported (fst (run events (s, u)))
   <= (if _event_available s then 1 else 0) + edges events)%nat /\
  (forall data_raw rest,
     exists answers,
       fst (run (Edge :: Poll data_raw :: rest) (s, u)) = true :: answers).
Proof.
  split; [apply reported_bound |].
  intros data_raw rest. rewrite run_edge.
  pose proof (handleISR_sets_flag World s u) as E.
  destruct (handleISR (s, u)) as [s1 u1]. cbn [fst] in E.
  rewrite run_poll. cbn [fst].
  destruct (available_answer World data_raw s1) as [Ea _].
  rewrite Ea, E. cbn [_event_available with_event_available].
  eexists. reflexivity.
Qed.

End RunProperties.

(** ** Gesture names, enumerator by enumerator *)

Section GestureNameTable.

Context {hdr : CST816S_h}.
Variable World : Type.
Implicit Type s : CST816S World.

(** The pairs of enumerator and name, in the order of the [switch]. *)
Lemma gesture_lookup s :
  NoDup gesture_codes ->
  forall code name,
    In (code, name)
       [(NONE, "NONE"); (SWIPE_DOWN, "SWIPE DOWN"); (SWIPE_UP, "SWIPE UP");
        (SWIPE_LEFT, "SWIPE LEFT"); (SWIPE_RIGHT, "SWIPE RIGHT");
        (SINGLE_CLICK, "SINGLE CLICK"); (DOUBLE_CLICK, "DOUBLE CLICK");
        (LONG_PRESS, "LONG PRESS")]%string ->
    gestureID (data s) = code -> gesture s = name.
Proof.
  intros Hnd code name Hin Hid. unfold gesture. rewrite Hid.
  unfold gesture_codes in Hnd.
  repeat match goal with
         | H : NoDup (_ :: _) |- _ => inversion H; clear H; subst
         end.
  cbn [In] in *.
  repeat match goal with
         | H : (_, _) = (_, _) \/ _ |- _ => destruct H as [H | H]
         | H : (_, _) = (_, _) |- _ => injection H as <- <-
         | H : False |- _ => contradiction
         end;
    repeat match goal with
           | |- context [?a =? ?a] => rewrite Z.eqb_refl
           | |- context [?a =? ?b] =>
               destruct (Z.eqb_spec a b) as [E | _];
               [exfalso; rewrite E in *; tauto |]
           end;
    reflexivity.
Qed.

(** X18.  When the enumerators of [GESTURE] are pairwise different, as a
    [switch] over them requires, [gesture] names each of them by its own
    literal, and it answers UNKNOWN exactly for the identifiers that are no
    enumerator. *)
Theorem gesture_names_each_enumerator s :
  NoDup gesture_codes ->
  (forall code name,
     In (code, name)
        [(NONE, "NONE"); (SWIPE_DOWN, "SWIPE DOWN"); (SWIPE_UP, "SWIPE UP");
         (SWIPE_LEFT, "SWIPE LEFT"); (SWIPE_RIGHT, "SWIPE RIGHT");
         (SINGLE_CLICK, "SINGLE CLICK"); (DOUBLE_CLICK, "DOUBLE CLICK");
         (LONG_PRESS, "LONG PRESS")]%string ->
     gestureID (data s) = code -> gesture s = name) /\
  (gesture s = "UNKNOWN"%string <-> ~ In (gestureID (data s)) gesture_codes).
Proof.
  intros Hnd. split; [now apply gesture_lookup |].
  split; [| apply gesture_unknown].
  intros Hu Hin. unfold gesture_codes in Hin. cbn [In] in Hin.
  repeat match goal with
         | H : _ \/ _ |- _ => destruct H as [H | H]
         | H : False |- _ => contradiction
         end;
    match goal with
    | H : ?c = gestureID (data s) |- _ =>
        first
          [ rewrite (gesture_lookup s Hnd c "NONE" ltac:(cbn; tauto)
                       (eq_sym H)) in Hu
          | rewrite (gesture_lookup s Hnd c "SWIPE UP" ltac:(cbn; tauto)
                       (eq_sym H)) in Hu
          | rewrite (gesture_lookup s Hnd c "SWIPE DOWN" ltac:(cbn; tauto)
                       (eq_sym H)) in Hu
          | rewrite (gesture_lookup s Hnd c "SWIPE LEFT" ltac:(cbn; tauto)
                       (eq_sym H)) in Hu
          | rewrite (gesture_lookup s Hnd c "SWIPE RIGHT" ltac:(cbn; tauto)
                       (eq_sym H)) in Hu
          | rewrite (gesture_lookup s Hnd c "SINGLE CLICK" ltac:(cbn; tauto)
                       (eq_sym H)) in Hu
          | rewrite (gesture_lookup s Hnd c "DOUBLE CLICK" ltac:(cbn; tauto)
                       (eq_sym H)) in Hu
          | rewrite (gesture_lookup s Hnd c "LONG PRESS" ltac:(cbn; tauto)
                       (eq_sym H)) in Hu ]
    end;
    discriminate Hu.
Qed.

End GestureNameTable.

(** ** The further statements at concrete inputs *)

(** A read of six bytes that nobody acknowledges. *)
Lemma i2c_read_unacknowledged_sample :
  next_ack board_silent <> 0 /\
  fst (i2c_read 0x15 0x01 zero_stack 6 board_silent) = (255, zero_stack) /\
  trace (snd (i2c_read 0x15 0x01 zero_stack 6 board_silent)) =
  [CallBeginTransmission 0x15; CallWrite 0x01; CallEndTransmission true].
Proof.
  assert (Hack : next_ack board_silent <> 0) by (cbn; discriminate).
  split; [exact Hack |].
  destruct (i2c_read_unacknowledged 0x15 0x01 zero_stack 6 board_silent Hack)
    as (A & B & _).
  split; [exact A | exact B].
Defined.

(** A read of six bytes to which the chip sends two. *)
Lemma i2c_read_acknowledged_sample :
  let b := board_answering [7; 8] in
  next_ack b = 0 /\ (6 <= List.length zero_stack)%nat /\
  fst (i2c_read 0x15 0x01 zero_stack 6 b) =
  (0, [7; 8; 255; 255; 255; 255; 0; 0]).
Proof.
  intros b.
  assert (Hlen : (Z.to_nat (to_u32 6) <= List.length zero_stack)%nat)
    by (vm_compute; lia).
  split; [reflexivity | split; [cbn; lia |]].
  exact (proj1 (i2c_read_acknowledged 0x15 0x01 zero_stack 6 b
                  eq_refl Hlen)).
Defined.

(** A write of two bytes out of three, acknowledged. *)
Lemma i2c_write_transaction_sample :
  let b := board_answering [] in
  (2 <= List.length [0xAA; 0xBB; 0xCC])%nat /\
  fst (i2c_write 0x15 0xF9 [0xAA; 0xBB; 0xCC] 2 b) = 0 /\
  trace (snd (i2c_write 0x15 0xF9 [0xAA; 0xBB; 0xCC] 2 b)) =
  [CallBeginTransmission 0x15; CallWrite 0xF9; CallWrite 0xAA;
   CallWrite 0xBB; CallEndTransmission true].
Proof.
  intros b.
  assert (Hlen : (Z.to_nat (to_u32 2)
                  <= List.length [0xAA; 0xBB; 0xCC])%nat)
    by (vm_compute; lia).
  split; [cbn; lia |].
  destruct (i2c_write_transaction 0x15 0xF9 [0xAA; 0xBB; 0xCC] 2 b Hlen)
    as (A & B & _).
  split; [exact A | exact B].
Defined.

(** Initialisation on a board that answers both version reads. *)
Lemma begin_call_order_sample :
  let s := sample_driver
             (mkBoard [] [0; 0] [[0xB5]; [1; 2; 3]] []) 0 false in
  (3 <= List.length (versionInfo (data s)))%nat /\
  trace (hw (begin (hdr := sample_header) 2 s)) =
  [CallWireBegin 21 22 400000; CallPinMode 4 INPUT; CallPinMode 5 OUTPUT;
   CallDigitalWrite 5 HIGH; CallDelay 50; CallDigitalWrite 5 LOW;
   CallDelay 5; CallDigitalWrite 5 HIGH; CallDelay 50;
   CallBeginTransmission 0x15; CallWrite 0x15; CallEndTransmission true;
   CallRequestFrom 0x15 1 true; CallRead; CallDelay 5;
   CallBeginTransmission 0x15; CallWrite 0xA7; CallEndTransmission true;
   CallRequestFrom 0x15 3 true; CallRead; CallRead; CallRead;
   CallAttachInterrupt 4 2].
Proof.
  intros s.
  assert (Hlen : (3 <= List.length (versionInfo (data s)))%nat)
    by (cbn; lia).
  split; [exact Hlen |].
  exact (begin_call_order (hdr := sample_header) unit s 2 Hlen).
Defined.

(** Initialisation: the version bytes of a chip that answers, and the
    stale ones of a chip that does not. *)
Lemma begin_reads_version_sample :
  let s := sample_driver
             (mkBoard [] [0; 0] [[0xB5]; [1; 2; 3]] []) 0 false in
  let s2 := sample_driver (mkBoard [] [2; 2] [] []) 0 false in
  List.length (versionInfo (data s)) = 3%nat /\
  version (data (begin (hdr := sample_header) 2 s)) = 0xB5 /\
  versionInfo (data (begin (hdr := sample_header) 2 s)) = [1; 2; 3] /\
  version (data (begin (hdr := sample_header) 2 s2)) = 0xB4 /\
  versionInfo (data (begin (hdr := sample_header) 2 s2)) = [0xB4; 0; 1].
Proof.
  intros s s2.
  split; [reflexivity |].
  destruct (begin_reads_version (hdr := sample_header) unit s 2 eq_refl)
    as (V & I & _).
  destruct (begin_reads_version (hdr := sample_header) unit s2 2 eq_refl)
    as (V2 & I2 & _).
  split; [exact V | split; [exact I | split; [exact V2 | exact I2]]].
Defined.

(** The argument -1. *)
Lemma setRotation_every_argument_sample :
  let s := sample_driver board_silent 0 false in
  -1 < 0 /\ (-1) mod 4 <> 0 /\
  _rotation (setRotation (-1) s) = -1 /\
  rotateGesture (setRotation (-1) s) 2 = 2 /\
  rotatePoint (setRotation (-1) s) (80, 16) = (80, 16).
Proof.
  intros s.
  assert (Hneg : -1 < 0) by lia.
  assert (Hnz : (-1) mod 4 <> 0) by (vm_compute; discriminate).
  split; [exact Hneg | split; [exact Hnz |]].
  destruct (proj2 (setRotation_every_argument unit s (-1)) Hneg Hnz)
    as (E & _ & G & P).
  split; [exact E | split; [exact (G 2) | exact (P (80, 16))]].
Defined.

(** One quarter turn after two, against three quarter turns. *)
Lemma rotateGesture_composes_sample :
  let s := sample_driver board_silent 0 false in
  0 <= 1 /\ 0 <= 2 /\
  rotateGesture (setRotation 1 s) (rotateGesture (setRotation 2 s) 3) =
  rotateGesture (setRotation 3 s) 3.
Proof.
  intros s.
  assert (H1 : 0 <= 1) by lia.
  assert (H2 : 0 <= 2) by lia.
  split; [exact H1 | split; [exact H2 |]].
  exact (rotateGesture_composes unit s s s 1 2 3 H1 H2).
Defined.

(** The point (80, 16) on the 240 x 240 panel, turned once. *)
Lemma rotatePoint_stays_on_panel_sample :
  let s := sample_driver board_silent 1 false in
  _width s < 2147483648 /\ _height s < 2147483648 /\
  0 <= 80 < _width s /\ 0 <= 16 < _height s /\
  0 <= fst (rotatePoint s (80, 16)) < _height s /\
  0 <= snd (rotatePoint s (80, 16)) < _width s.
Proof.
  intros s.
  assert (Hw : _width s < 2147483648) by (cbn; lia).
  assert (Hh : _height s < 2147483648) by (cbn; lia).
  assert (Hx : 0 <= 80 < _width s) by (cbn; lia).
  assert (Hy : 0 <= 16 < _height s) by (cbn; lia).
  split; [exact Hw | split; [exact Hh | split; [exact Hx |
    split; [exact Hy |]]]].
  exact (proj1 (rotatePoint_stays_on_panel unit s 80 16 Hw Hh Hx Hy)
           (or_introl eq_refl)).
Defined.

(** Two points with the same image under a half turn. *)
Lemma rotatePoint_injective_sample :
  let s := sample_driver board_silent 2 false in
  is_int 80 /\ is_int 16 /\
  rotatePoint s (80, 16) = rotatePoint s (80, 16) /\
  (80, 16) = (80, 16).
Proof.
  intros s.
  assert (H80 : is_int 80) by (unfold is_int; lia).
  assert (H16 : is_int 16) by (unfold is_int; lia).
  split; [exact H80 | split; [exact H16 | split; [reflexivity |]]].
  exact (rotatePoint_injective unit s 80 16 80 16 H80 H16 H80 H16 eq_refl).
Defined.

(** A poll with an interrupt pending, on a chip that answers. *)
Lemma available_bus_traffic_sample :
  let s := sample_driver (board_answering fixture_block) 0 true in
  (6 <= List.length zero_stack)%nat /\
  trace (hw (snd (available (hdr := sample_header) zero_stack s))) =
  [CallBeginTransmission 0x15; CallWrite 0x01; CallEndTransmission true;
   CallRequestFrom 0x15 6 true;
   CallRead; CallRead; CallRead; CallRead; CallRead; CallRead].
Proof.
  intros s.
  assert (Hlen : (6 <= List.length zero_stack)%nat) by (cbn; lia).
  split; [exact Hlen |].
  exact (proj1 (available_bus_traffic (hdr := sample_header) unit s
                  zero_stack Hlen)).
Defined.

(** A poll that is acknowledged and answered with nothing. *)
Lemma acknowledged_poll_decodes_reply_sample :
  let s := sample_driver (mkBoard [] [0] [] []) 0 true in
  let d := data (snd (available (hdr := sample_header) zero_stack s)) in
  _event_available s = true /\ next_ack (hw s) = 0 /\
  (6 <= List.length zero_stack)%nat /\ next_reply (hw s) = [] /\
  gestureID d = 255 /\ points d = 255 /\ event d = 3 /\
  (x d, y d) = (4095, 4095).
Proof.
  intros s d.
  assert (Hlen : (6 <= List.length zero_stack)%nat) by (cbn; lia).
  split; [reflexivity | split; [reflexivity | split; [exact Hlen |
    split; [reflexivity |]]]].
  exact (proj2 (acknowledged_poll_decodes_reply (hdr := sample_header) unit
                  s zero_stack eq_refl eq_refl Hlen) eq_refl).
Defined.

(** A poll of the fixture block. *)
Lemma polled_fields_in_range_sample :
  let s := sample_driver (board_answering fixture_block) 3 true in
  let d := data (snd (available (hdr := sample_header) zero_stack s)) in
  _event_available s = true /\
  0 <= gestureID d <= 255 /\ 0 <= points d <= 255 /\ 0 <= event d <= 3.
Proof.
  intros s d. split; [reflexivity |].
  exact (polled_fields_in_range (hdr := sample_header) unit s zero_stack
           eq_refl zero_stack_is_u8).
Defined.

(** A poll that is not acknowledged, with a stack that spells a touch. *)
Lemma unacknowledged_poll_decodes_stack_sample :
  let s := sample_driver board_silent 0 true in
  let stack := [0x05; 0x01; 0x80; 0x64; 0x00; 0x32; 0; 0] in
  let r := available (hdr := sample_header) stack s in
  _event_available s = true /\ next_ack (hw s) <> 0 /\
  fst r = true /\
  gestureID (data (snd r)) = 5 /\ points (data (snd r)) = 1 /\
  event (data (snd r)) = 2 /\
  (x (data (snd r)), y (data (snd r))) = (100, 50).
Proof.
  intros s stack r.
  assert (Hack : next_ack (hw s) <> 0) by (cbn; discriminate).
  split; [reflexivity | split; [exact Hack |]].
  destruct (unacknowledged_poll_decodes_stack (hdr := sample_header) unit s
              stack eq_refl Hack) as (A & _ & G & P & E & XY & _).
  split; [exact A | split; [exact G | split; [exact P |
    split; [exact E | exact XY]]]].
Defined.

Lemma sample_header_codes_differ :
  NoDup (gesture_codes (hdr := sample_header)).
Proof.
  unfold gesture_codes. cbn.
  repeat (constructor; [cbn; intuition discriminate |]).
  constructor.
Defined.

(** The sample header: the enumerator 0x0B is the double click. *)
Lemma gesture_names_each_enumerator_sample :
  let s := with_data (mkData 0x0B 1 0 80 16 0xB4 [0xB4; 0x00; 0x01])
             (sample_driver board_silent 0 false) in
  NoDup (gesture_codes (hdr := sample_header)) /\
  gesture (hdr := sample_header) s = "DOUBLE CLICK"%string.
Proof.
  intros s.
  split; [exact sample_header_codes_differ |].
  apply (proj1 (gesture_names_each_enumerator (hdr := sample_header) unit s
                  sample_header_codes_differ) 0x0B "DOUBLE CLICK"%string).
  - cbn. tauto.
  - reflexivity.
Defined.

(** ** Constructors and repeated turns *)

Section Construction.

Variable World : Type.
Implicit Type s : CST816S World.

(** X19.  For a rotation from 0 to 3 the constructor that takes a rotation
    builds the same driver as the other constructor followed by
    [setRotation]; the constructor without a rotation builds a driver that
    rotates neither gestures nor points. *)
Theorem constructor_with_rotation s (sda scl rst irq rotation : Z) :
  (0 <= rotation <= 3 ->
   CST816S_ctor_rot s sda scl rst irq rotation =
   setRotation rotation (CST816S_ctor s sda scl rst irq)) /\
  (forall g p,
     rotateGesture (CST816S_ctor s sda scl rst irq) g = g /\
     rotatePoint (CST816S_ctor s sda scl rst irq) p = p).
Proof.
  split.
  - intros Hr. unfold CST816S_ctor_rot, setRotation, CST816S_ctor, c_rem.
    cbn [hw _sda _scl _rst _irq _rotation _width _height _event_available
            userISR data].
    rewrite Z.rem_small by lia. reflexivity.
  - intros g p.
    apply unknown_rotation_is_no_rotation.
    rewrite CST816S_ctor_rotation. lia.
Qed.

(** X20.  Four quarter turns in the same direction give every point back,
    whatever the declared size. *)
Theorem rotatePoint_four_quarter_turns s (px py : Z) :
  is_int px -> is_int py ->
  _rotation s = 1 \/ _rotation s = 3 ->
  rotatePoint s (rotatePoint s (rotatePoint s (rotatePoint s (px, py))))
  = (px, py).
Proof.
  intros Hx Hy [E | E].
  - rewrite !(rotatePoint_rotation_1 World s _ E). cbn [fst snd].
    now rewrite !to_int_flip_flip.
  - rewrite !(rotatePoint_rotation_3 World s _ E). cbn [fst snd].
    now rewrite !to_int_flip_flip.
Qed.

End Construction.

(** The constructor with rotation 3. *)
Lemma constructor_with_rotation_sample :
  let s := sample_driver board_silent 0 false in
  0 <= 3 <= 3 /\
  CST816S_ctor_rot s 21 22 5 4 3 = setRotation 3 (CST816S_ctor s 21 22 5 4).
Proof.
  intros s.
  assert (H3 : 0 <= 3 <= 3) by lia.
  split; [exact H3 |].
  exact (proj1 (constructor_with_rotation unit s 21 22 5 4 3) H3).
Defined.

(** Four turns of 90 degrees on a 240 x 280 panel. *)
Lemma rotatePoint_four_quarter_turns_sample :
  let s := setSize 240 280 (sample_driver board_silent 1 false) in
  is_int 80 /\ is_int 16 /\ _rotation s = 1 /\
  rotatePoint s (rotatePoint s (rotatePoint s (rotatePoint s (80, 16))))
  = (80, 16).
Proof.
  intros s.
  assert (H80 : is_int 80) by (unfold is_int; lia).
  assert (H16 : is_int 16) by (unfold is_int; lia).
  split; [exact H80 | split; [exact H16 | split; [reflexivity |]]].
  exact (rotatePoint_four_quarter_turns unit s 80 16 H80 H16
           (or_introl eq_refl)).
Defined.
